(** * The Ollama relay handler ([src/app/api/ollama/route.ts])

    A shallow embedding of the [POST] route handler and the properties of
    its result, of the outbound call it issues and of the deadline timer
    it arms.

    The handler is one [try / catch / finally] statement.  Its body is
    embedded as a computation in a state-and-exception monad: the state
    holds what the handler mutates (the [timeoutId] variable, the timers
    pending in the event loop, the abort flag of the controller, the
    outbound calls issued, the properties added to the backend response
    object), and an abrupt completion carries the thrown JavaScript
    value.  What the handler reads from outside (the inbound body, the
    environment, the backend) is a [world].

    The diagnostic [console.log] calls behind [DEBUG_OLLAMA] write to the
    console only and are left out, but for the one on line 13, whose
    template literal converts the model and the URL to strings and can
    throw. *)

From Stdlib Require Import String Ascii List Bool NArith ZArith Lia.
From Stdlib Require Import Floats DecimalString.
Import ListNotations.

Local Open Scope string_scope.
Local Open Scope list_scope.

(** ** JavaScript values *)

#[local] Set Warnings "-register-all".

(** The values the handler sees: what [JSON.parse] produces, and
    [undefined] for absent properties.  An object is the list of its own
    properties in insertion order. *)
Inductive value : Type :=
| VUndefined
| VNull
| VBool (b : bool)
| VNum (f : float)
| VStr (s : string)
| VArr (items : list value)
| VObj (props : list (string * value)).

(** [ToBoolean]: what [if (v)], [!v], [a && b] and [a || b] test. *)
Definition truthy (v : value) : bool :=
  match v with
  | VUndefined | VNull => false
  | VBool b => b
  | VNum f => negb (PrimFloat.eqb f 0%float) && PrimFloat.eqb f f
  | VStr s => negb (String.eqb s EmptyString)
  | VArr _ | VObj _ => true
  end.

Definition nullish (v : value) : bool :=
  match v with
  | VUndefined | VNull => true
  | _ => false
  end.

Definition is_string (v : value) : bool :=
  match v with
  | VStr _ => true
  | _ => false
  end.

(** Own property of an object, [undefined] when there is none. *)
Fixpoint lookup (k : string) (props : list (string * value)) : value :=
  match props with
  | [] => VUndefined
  | (k', v) :: rest => if String.eqb k k' then v else lookup k rest
  end.

(** Whether an object has an own property [k], whatever it holds. *)
Fixpoint has_own (k : string) (props : list (string * value)) : bool :=
  match props with
  | [] => false
  | (k', _) :: rest => String.eqb k k' || has_own k rest
  end.

(** [a || b] on values. *)
Definition js_or (a b : value) : value := if truthy a then a else b.

(** Decimal digits of a status code, as in a template literal. *)
Definition N_to_string (n : N) : string :=
  NilEmpty.string_of_uint (N.to_uint n).

(** A status code as a JavaScript number. *)
Definition N_to_float (n : N) : float :=
  PrimFloat.of_uint63 (Uint63.of_Z (Z.of_N n)).

(** ** Serialisation *)

Definition is_negative_zero (f : float) : bool :=
  PrimFloat.is_zero f && PrimFloat.ltb (1 / f) 0.

(** [JSON.stringify(v)], as the JSON value that the text written
    denotes: a number that is not finite is written [null] and negative
    zero [0]; a property that holds [undefined] is left out; an
    [undefined] array element is written [null].  Nothing is written for
    [undefined] itself.  (The values here hold no function, so no
    [toJSON] is called.) *)
Fixpoint JSON_stringify (v : value) : value :=
  match v with
  | VUndefined => VUndefined
  | VNull => VNull
  | VBool b => VBool b
  | VNum f =>
      if PrimFloat.is_finite f then
        if is_negative_zero f then VNum 0%float else VNum f
      else VNull
  | VStr s => VStr s
  | VArr items =>
      VArr (map (fun x => match x with
                          | VUndefined => VNull
                          | _ => JSON_stringify x
                          end) items)
  | VObj props =>
      VObj ((fix written (ps : list (string * value)) :=
               match ps with
               | [] => []
               | (k, x) :: rest =>
                   match x with
                   | VUndefined => written rest
                   | _ => (k, JSON_stringify x) :: written rest
                   end
               end) props)
  end.

(** The values that [JSON.stringify] writes as they are: every number
    in them is finite and not negative zero, and nothing in them is
    [undefined]. *)
Fixpoint json_stable (v : value) : bool :=
  match v with
  | VUndefined => false
  | VNull | VBool _ | VStr _ => true
  | VNum f =>
      PrimFloat.is_finite f && negb (is_negative_zero f)
  | VArr items => forallb json_stable items
  | VObj props =>
      (fix stable (ps : list (string * value)) :=
         match ps with
         | [] => true
         | (_, x) :: rest => json_stable x && stable rest
         end) props
  end.

(** ** Completions and awaited operations *)

(** A statement or call completes normally with a result, or abruptly
    with a thrown value. *)
Inductive completion (A : Type) : Type :=
| Normal (a : A)
| Throw (e : value).
Arguments Normal {A} a.
Arguments Throw {A} e.

(** An operation awaited while the deadline timer is armed either
    settles before the timer fires, or the timer fires first. *)
Inductive async (A : Type) : Type :=
| Settled (c : completion A)
| DeadlineFirst.
Arguments Settled {A} c.
Arguments DeadlineFirst {A}.

(** An [Error] object, by the two properties the handler reads. *)
Definition error_object (name message : string) : value :=
  VObj [("name", VStr name); ("message", VStr message)].

Definition type_error (message : string) : value :=
  error_object "TypeError" message.

(** What an aborted [fetch] rejects with. *)
Definition abort_error : value :=
  error_object "AbortError" "This operation was aborted".

(** Wording of V8 (the route declares [runtime = 'nodejs']). *)
Definition cannot_read (v : value) (prop : string) : string :=
  "Cannot read properties of "
  ++ (match v with VNull => "null" | _ => "undefined" end)
  ++ " (reading '" ++ prop ++ "')".

Definition not_a_function (expr : string) : string :=
  expr ++ " is not a function".

Definition cannot_destructure (v : value) (prop : string) : string :=
  let what := match v with VNull => "null" | _ => "undefined" end in
  "Cannot destructure property '" ++ prop
  ++ "' of '(intermediate value)' as it is " ++ what ++ ".".

(** [v.prop] for the property names the handler reads ([messages],
    [model], [baseUrl], [role], [content], [message], [response],
    [models], [data], [name]): a [TypeError] on [null] and [undefined],
    the own property on an object, [undefined] on a primitive or an
    array, whose prototypes define none of these names. *)
Definition get_prop (v : value) (prop : string) : completion value :=
  match v with
  | VUndefined | VNull => Throw (type_error (cannot_read v prop))
  | VObj props => Normal (lookup prop props)
  | _ => Normal VUndefined
  end.

(** ** The world outside the handler *)

(** The backend's reply as the handler uses it: [status], [statusText],
    and the outcome of reading the body with [text()] or with [json()]. *)
Record Response : Type := {
  status : N;
  statusText : string;
  text : async string;
  json : async value
}.

(** [response.ok]: the status is in the range 200 to 299. *)
Definition ok (r : Response) : bool :=
  (200 <=? status r)%N && (status r <=? 299)%N.

Record world : Type := {
  (** [process.env.OLLAMA_URL] *)
  OLLAMA_URL : option string;
  (** [process.env.DEBUG_OLLAMA] *)
  DEBUG_OLLAMA : option string;
  (** outcome of [await req.json()] *)
  req_json : completion value;
  (** outcome of [fetch(url, { method: 'POST', body })], by the URL and
      the value serialised as the body *)
  fetch : string -> value -> async Response
}.

(** [process.env.DEBUG_OLLAMA === '1'] *)
Definition debug (w : world) : bool :=
  match DEBUG_OLLAMA w with
  | Some flag => String.eqb flag "1"
  | None => false
  end.

(** ** The handler's state *)

(** A [NodeJS.Timeout] handle; an object, hence truthy. *)
Record Timeout : Type := { timer_id : nat; delay : N }.

Record state : Type := {
  (** [let timeoutId: NodeJS.Timeout | null] *)
  timeoutId : option Timeout;
  (** timers armed in the event loop and not yet fired or cleared *)
  pending : list Timeout;
  (** number of timers created so far *)
  timers_created : nat;
  (** [controller.signal.aborted] *)
  aborted : bool;
  (** calls of [fetch] issued so far, latest first: the URL and the
      object handed to [JSON.stringify] for the body *)
  outbound : list (string * value);
  (** properties assigned on the backend response object *)
  response_props : list (string * value)
}.

Definition entry_state : state :=
  {| timeoutId := None; pending := []; timers_created := 0;
     aborted := false; outbound := []; response_props := [] |}.

Definition Timeout_eqb (a b : Timeout) : bool :=
  Nat.eqb (timer_id a) (timer_id b).

Fixpoint remove_timer (t : Timeout) (l : list Timeout) : list Timeout :=
  match l with
  | [] => []
  | x :: rest =>
      if Timeout_eqb t x then remove_timer t rest
      else x :: remove_timer t rest
  end.

(** ** The monad of the [try] block *)

Definition M (A : Type) : Type := state -> completion A * state.

Definition ret {A} (a : A) : M A := fun s => (Normal a, s).

Definition bind {A B} (m : M A) (k : A -> M B) : M B :=
  fun s =>
    match m s with
    | (Normal a, s') => k a s'
    | (Throw e, s') => (Throw e, s')
    end.

(** A step that touches no state. *)
Definition lift {A} (c : completion A) : M A := fun s => (c, s).

Definition cbind {A B} (c : completion A) (k : A -> completion B)
  : completion B :=
  match c with
  | Normal a => k a
  | Throw e => Throw e
  end.

Declare Scope relay_scope.
Delimit Scope relay_scope with relay.
Notation "x <- m ;; k" := (bind m (fun x => k))
  (at level 61, m at next level, right associativity) : relay_scope.
Notation "m ;; k" := (bind m (fun _ => k))
  (at level 61, right associativity) : relay_scope.
Notation "x <~ c ;; k" := (cbind c (fun x => k))
  (at level 61, c at next level, right associativity) : relay_scope.
Local Open Scope relay_scope.

(** [array.map(f)] with a callback that may throw: left to right, the
    first throw ends it. *)
Fixpoint map_c {A B} (f : A -> completion B) (l : list A)
  : completion (list B) :=
  match l with
  | [] => Normal []
  | x :: rest =>
      y <~ f x ;;
      ys <~ map_c f rest ;;
      Normal (y :: ys)
  end.

(** [timeoutId = setTimeout(() => controller.abort(), ms)] *)
Definition setTimeout (ms : N) : M unit :=
  fun s =>
    let t := {| timer_id := timers_created s; delay := ms |} in
    (Normal tt,
     {| timeoutId := Some t; pending := t :: pending s;
        timers_created := S (timers_created s);
        aborted := aborted s; outbound := outbound s;
        response_props := response_props s |}).

(** The timer callback runs: the timer is no longer pending and the
    controller is aborted. *)
Definition fire_timer (s : state) : state :=
  {| timeoutId := timeoutId s;
     pending := match timeoutId s with
                | Some t => remove_timer t (pending s)
                | None => pending s
                end;
     timers_created := timers_created s;
     aborted := true; outbound := outbound s;
     response_props := response_props s |}.

(** [clearTimeout(t)]: nothing happens when [t] is not pending. *)
Definition clearTimeout (t : Timeout) (s : state) : state :=
  {| timeoutId := timeoutId s; pending := remove_timer t (pending s);
     timers_created := timers_created s;
     aborted := aborted s; outbound := outbound s;
     response_props := response_props s |}.

(** [await] of an operation bound to the controller's signal: when the
    timer fires first, the callback aborts the controller and the
    operation rejects with an [AbortError]. *)
Definition await {A} (a : async A) : M A :=
  fun s =>
    match a with
    | Settled c => (c, s)
    | DeadlineFirst => (Throw abort_error, fire_timer s)
    end.

(** A call of [fetch] is noted with its URL and the object that
    [JSON.stringify] is given for its body. *)
Definition record_call (url : string) (body : value) : M unit :=
  fun s =>
    (Normal tt,
     {| timeoutId := timeoutId s; pending := pending s;
        timers_created := timers_created s;
        aborted := aborted s; outbound := (url, body) :: outbound s;
        response_props := response_props s |}).

(** [response.prop = v]: the backend response object is extensible. *)
Definition set_response_prop (prop : string) (v : value) : M unit :=
  fun s =>
    (Normal tt,
     {| timeoutId := timeoutId s; pending := pending s;
        timers_created := timers_created s;
        aborted := aborted s; outbound := outbound s;
        response_props := (prop, v) :: response_props s |}).

(** ** The handler *)

(** What the handler returns: the status and the value it hands to the
    serialiser for the body ([Response.json(v)],
    [new Response(JSON.stringify(v), {status})]); what is written is
    [JSON_stringify] of it. *)
Record http_response : Type := {
  http_status : N;
  http_body : value
}.

Definition default_url : string := "http://localhost:11434".
Definition placeholder : string := "No response from Ollama".
Definition deadline_ms : N := 45000.

(** [const { messages, model, baseUrl } = body] *)
Definition destructure (body : value) : completion (value * value * value) :=
  match body with
  | VUndefined | VNull =>
      Throw (type_error (cannot_destructure body "messages"))
  | VObj props =>
      Normal (lookup "messages" props, lookup "model" props,
              lookup "baseUrl" props)
  | _ => Normal (VUndefined, VUndefined, VUndefined)
  end.

(** [msg => ({ role: msg.role, content: msg.content })] *)
Definition to_ollama_message (msg : value) : completion value :=
  role <~ get_prop msg "role" ;;
  content <~ get_prop msg "content" ;;
  Normal (VObj [("role", role); ("content", content)]).

(** [messages.map(...)]: only an array has the method. *)
Definition messages_map (messages : value) : completion (list value) :=
  match messages with
  | VArr items => map_c to_ollama_message items
  | VUndefined | VNull => Throw (type_error (cannot_read messages "map"))
  | _ => Throw (type_error (not_a_function "messages.map"))
  end.

(** Lines 61 to 68: the text of the answer. *)
Definition extract_text (data : value) : completion value :=
  message <~ get_prop data "message" ;;
  content <~ (if truthy message then get_prop message "content"
              else Normal message) ;;
  if truthy content then get_prop message "content"
  else
    response <~ get_prop data "response" ;;
    if truthy response then Normal response
    else Normal (VStr placeholder).

(** Lines 71 to 81: the list of model descriptors. *)
Definition model_list (data : value) : list value :=
  match data with
  | VArr items => items
  | VObj props =>
      match lookup "models" props with
      | VArr items => items
      | _ =>
          match lookup "data" props with
          | VArr items => items
          | _ => []
          end
      end
  | _ => []
  end.

(** [m => m && typeof m.name === 'string' && m.name === slug] *)
Definition is_requested (slug : string) (m : value) : bool :=
  truthy m &&
  match get_prop m "name" with
  | Normal (VStr name) => String.eqb name slug
  | _ => false
  end.

(** [modelList.find(...)]: the first such entry, else [undefined]. *)
Definition find_model (slug : string) (modelList : list value) : value :=
  match List.find (is_requested slug) modelList with
  | Some m => m
  | None => VUndefined
  end.

(** Lines 89 to 92: the names offered when the model is not found. *)
Definition available_models (modelList : list value) : completion value :=
  names <~ map_c (fun m => get_prop m "name") modelList ;;
  Normal (VArr (firstn 10 (filter is_string names))).

(** [err?.prop] on a thrown value. *)
Definition read_opt (err : value) (prop : string) : value :=
  match err with
  | VObj props => lookup prop props
  | _ => VUndefined
  end.

Definition is_abort (err : value) : bool :=
  match read_opt err "name" with
  | VStr name => String.eqb name "AbortError"
  | _ => false
  end.

(** Lines 96 to 104. *)
Definition catch_block (err : value) : http_response :=
  if is_abort err then
    {| http_status := 504;
       http_body := VObj [("error", VStr "Ollama request timed out");
                          ("provider", VStr "ollama");
                          ("code", VNum 504%float)] |}
  else
    let message := js_or (read_opt err "message") (VStr "Unknown error") in
    {| http_status := 500;
       http_body := VObj [("error", message); ("provider", VStr "ollama")] |}.

(** Lines 105 to 110. *)
Definition finally_block (s : state) : state :=
  match timeoutId s with
  | Some t => clearTimeout t s
  | None => s
  end.

(** ** Reading results *)

(** [v.prop] where [v] is known not to be [null] or [undefined]. *)
Definition field (v : value) (prop : string) : value :=
  match v with
  | VObj props => lookup prop props
  | _ => VUndefined
  end.

(** What the caller receives as the body: the value as [Response.json]
    or [JSON.stringify] writes it. *)
Definition received (r : http_response) : value :=
  JSON_stringify (http_body r).

(** A property of the body of the handler's response. *)
Definition body_field (r : http_response) (prop : string) : value :=
  field (http_body r) prop.

(** The deadline timer fired while the outbound call to [url] was in
    flight: before [fetch] settled, or after it while the body was being
    read. *)
Definition deadline_exceeded (w : world) (url : string) (body : value)
  : bool :=
  match fetch w url body with
  | DeadlineFirst => true
  | Settled (Normal response) =>
      if ok response then
        match json response with DeadlineFirst => true | _ => false end
      else
        match text response with DeadlineFirst => true | _ => false end
  | Settled (Throw _) => false
  end.


(** The body of the 500 response that carries [message]. *)
Definition server_error (message : string) : http_response :=
  {| http_status := 500;
     http_body := VObj [("error", VStr message);
                        ("provider", VStr "ollama")] |}.



(** A message as the inbound schema has it, whatever [role] and
    [content] hold. *)
Definition chat_message (role content : value) : value :=
  VObj [("role", role); ("content", content)].

(** ** Sample runtime, requests and backends *)

Definition lower_ascii (c : ascii) : ascii :=
  let n := nat_of_ascii c in
  if (65 <=? n)%nat && (n <=? 90)%nat then ascii_of_nat (n + 32) else c.

(** [toLowerCase] on ASCII text, which is all the samples hold. *)
Fixpoint ascii_toLowerCase (s : string) : string :=
  match s with
  | EmptyString => EmptyString
  | String c rest => String (lower_ascii c) (ascii_toLowerCase rest)
  end.

(** The samples interpolate no number in a URL. *)
Definition sample_Number_toString (f : float) : string := "NaN".

Definition chat (role content : string) : value :=
  chat_message (VStr role) (VStr content).

(** [{messages: [{role: "user", content: "hi"}], model}] *)
Definition hi_request (model : value) : value :=
  VObj [("messages", VArr [chat "user" "hi"]); ("model", model)].

(** A backend that answers every call alike. *)
Definition backend (answer : async Response) : string -> value -> async Response :=
  fun _ _ => answer.

Definition replies (st : N) (st_text : string) (body_text : string)
  (body_json : completion value) : async Response :=
  Settled (Normal {| status := st; statusText := st_text;
                     text := Settled (Normal body_text);
                     json := Settled body_json |}).

Definition not_json : completion value :=
  Throw (error_object "SyntaxError" "Unexpected token < in JSON at position 0").

(** The backend answers 404 with a plain-text body. *)
Definition w_not_found : world :=
  {| OLLAMA_URL := None; DEBUG_OLLAMA := None;
     req_json := Normal (hi_request (VStr "llama3"));
     fetch := backend (replies 404 "Not Found" "model not found" not_json) |}.

(** The backend does not answer before the deadline. *)
Definition w_slow : world :=
  {| OLLAMA_URL := None; DEBUG_OLLAMA := None;
     req_json := Normal (hi_request (VStr "llama3"));
     fetch := backend DeadlineFirst |}.

(** Connection refused: [fetch] rejects. *)
Definition w_refused (message : string) : world :=
  {| OLLAMA_URL := None; DEBUG_OLLAMA := None;
     req_json := Normal (hi_request (VStr "llama3"));
     fetch := backend (Settled (Throw (type_error message))) |}.

(** [fetch] rejects with an error that has no message. *)
Definition w_silent : world :=
  {| OLLAMA_URL := None; DEBUG_OLLAMA := None;
     req_json := Normal (hi_request (VStr "llama3"));
     fetch := backend (Settled (Throw (error_object "Error" EmptyString))) |}.

(** [{models: [{name: "llama3"}, {name: "mistral"}, {foo: "bar"}]}] *)
Definition models_body : value :=
  VObj [("models", VArr [VObj [("name", VStr "llama3")];
                         VObj [("name", VStr "mistral")];
                         VObj [("foo", VStr "bar")]])].

(** The model [phi] is requested and the backend lists two others. *)
Definition w_phi : world :=
  {| OLLAMA_URL := None; DEBUG_OLLAMA := None;
     req_json := Normal (hi_request (VStr "phi"));
     fetch := backend (replies 200 "OK" "" (Normal models_body)) |}.

(** The backend's 2xx body is [{models: [null]}]. *)
Definition w_null_descriptor : world :=
  {| OLLAMA_URL := None; DEBUG_OLLAMA := None;
     req_json := Normal (hi_request (VStr "phi"));
     fetch := backend (replies 200 "OK" ""
                         (Normal (VObj [("models", VArr [VNull])]))) |}.

(** The backend's 2xx body is [null]. *)
Definition w_null_body : world :=
  {| OLLAMA_URL := None; DEBUG_OLLAMA := None;
     req_json := Normal (hi_request (VStr "llama3"));
     fetch := backend (replies 200 "OK" "null" (Normal VNull)) |}.

(** Reading the inbound body is aborted. *)
Definition w_inbound_aborted : world :=
  {| OLLAMA_URL := None; DEBUG_OLLAMA := None;
     req_json := Throw abort_error;
     fetch := backend DeadlineFirst |}.

(** The backend answers 503 and the read of its body fails. *)
Definition w_unread : world :=
  {| OLLAMA_URL := None; DEBUG_OLLAMA := None;
     req_json := Normal (hi_request (VStr "llama3"));
     fetch := backend
                (Settled (Normal
                   {| status := 503; statusText := "Service Unavailable";
                      text := Settled (Throw (type_error "terminated"));
                      json := Settled (Throw (type_error "terminated")) |})) |}.

(** [{response: "r", n: 1e999}], as [JSON.parse] gives it. *)
Definition overflow_body : value :=
  VObj [("response", VStr "r"); ("n", VNum infinity)].

Definition w_overflow : world :=
  {| OLLAMA_URL := None; DEBUG_OLLAMA := None;
     req_json := Normal (hi_request (VStr "llama3"));
     fetch := backend (replies 200 "OK" "" (Normal overflow_body)) |}.

(** The request carries [baseUrl: {toString: 1}]. *)
Definition w_object_base : world :=
  {| OLLAMA_URL := None; DEBUG_OLLAMA := None;
     req_json :=
       Normal (VObj [("messages", VArr [chat "user" "hi"]);
                     ("model", VStr "llama3");
                     ("baseUrl", VObj [("toString", VNum 1%float)])]);
     fetch := backend (replies 200 "OK" "" (Normal VNull)) |}.

(** [DEBUG_OLLAMA=1] and the request carries [model: {toString: 1}]. *)
Definition w_debug_object_model : world :=
  {| OLLAMA_URL := None; DEBUG_OLLAMA := Some "1";
     req_json := Normal (hi_request (VObj [("toString", VNum 1%float)]));
     fetch := backend (replies 400 "Bad Request" "invalid model" not_json) |}.

(** [{message: {role: "assistant", content}}] *)
Definition message_body (content : string) : value :=
  VObj [("message", chat "assistant" content)].

(** The backend answers [hello there]. *)
Definition w_hello : world :=
  {| OLLAMA_URL := None; DEBUG_OLLAMA := None;
     req_json := Normal (hi_request (VStr "llama3"));
     fetch := backend (replies 200 "OK" "" (Normal (message_body "hello there"))) |}.

(** The backend answers with an empty content. *)
Definition w_empty_content : world :=
  {| OLLAMA_URL := None; DEBUG_OLLAMA := None;
     req_json := Normal (hi_request (VStr "llama3"));
     fetch := backend (replies 200 "OK" "" (Normal (message_body EmptyString))) |}.

(** The request carries [baseUrl: ""] and the environment names a host. *)
Definition empty_base_request : value :=
  VObj [("messages", VArr [chat "user" "hi"]); ("model", VStr "llama3");
        ("baseUrl", VStr EmptyString)].

Definition w_empty_base : world :=
  {| OLLAMA_URL := Some "http://gpu-box:11434"; DEBUG_OLLAMA := None;
     req_json := Normal empty_base_request;
     fetch := backend (replies 200 "OK" "" (Normal (message_body "hello there"))) |}.

(** The request carries [model: 5] and the backend answers 400. *)
Definition w_numeric_model : world :=
  {| OLLAMA_URL := None; DEBUG_OLLAMA := None;
     req_json := Normal (hi_request (VNum 5%float));
     fetch := backend (replies 400 "Bad Request" "invalid model" not_json) |}.

(** The same request, which the backend answers with a 2xx body. *)
Definition w_numeric_model_2xx : world :=
  {| OLLAMA_URL := None; DEBUG_OLLAMA := None;
     req_json := Normal (hi_request (VNum 5%float));
     fetch := backend (replies 200 "OK" "" (Normal (message_body "hello there"))) |}.


Section Handler.

(** Two functions of the JavaScript runtime that the handler calls and
    that are not code of the repository: [Number::toString], reached
    when a number is interpolated in the URL, and
    [String.prototype.toLowerCase]. *)
Variable Number_toString : float -> string.
Variable String_toLowerCase : string -> string.

(** [ToString], as a template literal applies it.  An object from
    [JSON.parse] is converted by [Object.prototype.toString], unless it
    has an own [toString], which is then not callable: [valueOf] gives
    back the object and the conversion throws.  An array is joined, its
    [null] and [undefined] elements as empty strings. *)
Fixpoint to_string (v : value) : completion string :=
  match v with
  | VUndefined => Normal "undefined"
  | VNull => Normal "null"
  | VBool true => Normal "true"
  | VBool false => Normal "false"
  | VNum f => Normal (Number_toString f)
  | VStr s => Normal s
  | VArr items =>
      parts <~ (fix join (l : list value) : completion (list string) :=
                  match l with
                  | [] => Normal []
                  | x :: rest =>
                      part <~ (if nullish x then Normal EmptyString
                               else to_string x) ;;
                      parts <~ join rest ;;
                      Normal (part :: parts)
                  end) items ;;
      Normal (String.concat "," parts)
  | VObj props =>
      if has_own "toString" props then
        Throw (type_error "Cannot convert object to primitive value")
      else Normal "[object Object]"
  end.

(** Line 13: the template literal is evaluated only when the flag is
    set, the model first. *)
Definition log_call (w : world) (model ollamaUrl : value)
  : completion unit :=
  if debug w then
    _ <~ to_string model ;;
    _ <~ to_string ollamaUrl ;;
    Normal tt
  else Normal tt.

(** [model.toLowerCase()]: only a string has the method. *)
Definition toLowerCase (model : value) : completion string :=
  match model with
  | VStr s => Normal (String_toLowerCase s)
  | VUndefined | VNull =>
      Throw (type_error (cannot_read model "toLowerCase"))
  | _ => Throw (type_error (not_a_function "model.toLowerCase"))
  end.

(** Line 11. *)
Definition resolve_url (w : world) (baseUrl : value) : value :=
  let env := match OLLAMA_URL w with
             | Some s => VStr s
             | None => VUndefined
             end in
  js_or (js_or baseUrl env) (VStr default_url).

(** Lines 46 to 55. *)
Definition backend_error (response : Response) : M http_response :=
  errorText <- await (text response) ;;
  ret {| http_status := 502;
         http_body :=
           VObj [("error",
                  VStr ("Ollama API error: "
                        ++ N_to_string (status response) ++ " "
                        ++ statusText response));
                 ("details", VStr errorText);
                 ("provider", VStr "ollama");
                 ("code", VNum (N_to_float (status response)))] |}.

(** Lines 57 to 95.  The body returned is the object handed to
    [Response.json]; [received] gives what that call writes. *)
Definition backend_success (model : value) (response : Response)
  : M http_response :=
  data <- await (json response) ;;
  text <- lift (extract_text data) ;;
  let modelList := model_list data in
  slug <- lift (toLowerCase model) ;;
  let found := find_model slug modelList in
  (if negb (truthy found) && (0 <? length modelList)%nat then
     names <- lift (available_models modelList) ;;
     set_response_prop "availableModels" names
   else ret tt) ;;
  ret {| http_status := 200;
         http_body := VObj [("text", text); ("raw", data)] |}.

(** Lines 9 to 95. *)
Definition try_block (w : world) : M http_response :=
  body <- lift (req_json w) ;;
  fields <- lift (destructure body) ;;
  let '(messages, model, baseUrl) := fields in
  let ollamaUrl := resolve_url w baseUrl in
  lift (log_call w model ollamaUrl) ;;
  ollamaMessages <- lift (messages_map messages) ;;
  let requestBody :=
    VObj [("model", model); ("messages", VArr ollamaMessages);
          ("stream", VBool false)] in
  setTimeout deadline_ms ;;
  prefix <- lift (to_string ollamaUrl) ;;
  let url := (prefix ++ "/api/chat")%string in
  record_call url requestBody ;;
  response <- await (fetch w url requestBody) ;;
  if negb (ok response) then backend_error response
  else backend_success model response.

(** Lines 9 to 25 alone, all that precedes the timer: the requested
    model, the value of [ollamaUrl] and the request body. *)
Definition inbound_request (w : world)
  : completion (value * value * value) :=
  body <~ req_json w ;;
  fields <~ destructure body ;;
  let '(messages, model, baseUrl) := fields in
  let ollamaUrl := resolve_url w baseUrl in
  _ <~ log_call w model ollamaUrl ;;
  ollamaMessages <~ messages_map messages ;;
  Normal (model, ollamaUrl,
          VObj [("model", model); ("messages", VArr ollamaMessages);
                ("stream", VBool false)]).

(** The same with the URL of line 35: the requested model, the URL and
    the request body of the outbound call, when the handler gets as far
    as issuing it. *)
Definition outbound_request (w : world)
  : completion (value * string * value) :=
  request <~ inbound_request w ;;
  let '(model, ollamaUrl, requestBody) := request in
  prefix <~ to_string ollamaUrl ;;
  Normal (model, (prefix ++ "/api/chat")%string, requestBody).

(** The state in which line 35 is evaluated: the timer armed, no call
    yet. *)
Definition armed : state :=
  let t := {| timer_id := 0; delay := deadline_ms |} in
  {| timeoutId := Some t; pending := [t]; timers_created := 1;
     aborted := false; outbound := []; response_props := [] |}.

(** The state in which the outbound call is awaited: the timer armed,
    the call recorded. *)
Definition calling (url : string) (body : value) : state :=
  let t := {| timer_id := 0; delay := deadline_ms |} in
  {| timeoutId := Some t; pending := [t]; timers_created := 1;
     aborted := false; outbound := [(url, body)];
     response_props := [] |}.

(** The handler: the response returned and the state left behind. *)
Definition POST (w : world) : http_response * state :=
  let '(c, s) := try_block w entry_state in
  let r := match c with
           | Normal r => r
           | Throw e => catch_block e
           end in
  (r, finally_block s).

(** The [try] block ends by throwing [e]. *)
Definition thrown (w : world) (e : value) : Prop :=
  fst (try_block w entry_state) = Throw e.

(** The steps that follow the parse of a 2xx body (lines 61 to 93) all
    go through: the body is not [null], the model is a string, and the
    names are listed only from a model list without [null]. *)
Definition completes (model data : value) : bool :=
  negb (nullish data) &&
  match model with
  | VStr requested =>
      let modelList := model_list data in
      truthy (find_model (String_toLowerCase requested) modelList)
      || (length modelList =? 0)%nat
      || forallb (fun m => negb (nullish m)) modelList
  | _ => false
  end.

(** The names line 89 assigns: those of the model list that are
    strings, the first ten of them. *)
Definition listed_names (modelList : list value) : list value :=
  firstn 10 (filter is_string (map (fun m => field m "name") modelList)).

(** ** The shape of a run *)

Lemma JSON_stringify_stable :
  forall v, json_stable v = true -> JSON_stringify v = v.
Proof.
  fix IH 1. intros [| |b|f|x|items|props]; cbn; intros H;
    try reflexivity; try discriminate.
  - apply andb_true_iff in H as [Hf Hz]. rewrite Hf.
    apply negb_true_iff in Hz. rewrite Hz. reflexivity.
  - f_equal. induction items as [|y l IHl]; [reflexivity|].
    cbn in H |- *. apply andb_true_iff in H as [Hy Hl].
    rewrite (IHl Hl). f_equal.
    rewrite (IH y Hy). destruct y; try reflexivity. discriminate.
  - f_equal. induction props as [|[k y] l IHl]; [reflexivity|].
    apply andb_true_iff in H as [Hy Hl].
    rewrite (IHl Hl). rewrite (IH y Hy).
    destruct y; try reflexivity. discriminate.
Qed.

Implicit Types (w : world) (s : state) (e : value).

Lemma try_block_shape w :
  try_block w entry_state =
  match inbound_request w with
  | Throw e => (Throw e, entry_state)
  | Normal (model, ollamaUrl, body) =>
      match to_string ollamaUrl with
      | Throw e => (Throw e, armed)
      | Normal prefix =>
          (response <- await (fetch w (prefix ++ "/api/chat")%string body) ;;
           if negb (ok response) then backend_error response
           else backend_success model response)
            (calling (prefix ++ "/api/chat")%string body)
      end
  end.
Proof.
  unfold inbound_request, try_block, bind, lift, cbind.
  destruct (req_json w) as [body|]; [|reflexivity].
  destruct (destructure body) as [[[messages model] baseUrl]|];
    [|reflexivity].
  destruct (log_call w model (resolve_url w baseUrl)); [|reflexivity].
  destruct (messages_map messages); [|reflexivity].
  cbn [setTimeout entry_state timers_created pending aborted outbound
       response_props].
  destruct (to_string (resolve_url w baseUrl)); reflexivity.
Qed.

Lemma try_block_early w e :
  outbound_request w = Throw e ->
  try_block w entry_state = (Throw e, entry_state) \/
  try_block w entry_state = (Throw e, armed).
Proof.
  rewrite try_block_shape. unfold outbound_request, cbind.
  destruct (inbound_request w) as [[[model ollamaUrl] body]|];
    [|intros [= ->]; now left].
  destruct (to_string ollamaUrl); [discriminate|].
  intros [= ->]. now right.
Qed.

Lemma try_block_call w model url body :
  outbound_request w = Normal (model, url, body) ->
  try_block w entry_state =
  (response <- await (fetch w url body) ;;
   if negb (ok response) then backend_error response
   else backend_success model response) (calling url body).
Proof.
  rewrite try_block_shape. unfold outbound_request, cbind.
  destruct (inbound_request w) as [[[model0 ollamaUrl] body0]|];
    [|discriminate].
  destruct (to_string ollamaUrl); [|discriminate].
  intros [= -> <- <-]; reflexivity.
Qed.

(** The state left when line 35 throws: the timer armed and cleared. *)
Definition disarmed : state :=
  {| timeoutId := Some {| timer_id := 0; delay := deadline_ms |};
     pending := []; timers_created := 1; aborted := false;
     outbound := []; response_props := [] |}.

Lemma POST_early w e :
  outbound_request w = Throw e ->
  POST w = (catch_block e, entry_state) \/
  POST w = (catch_block e, disarmed).
Proof.
  intros H. unfold POST.
  destruct (try_block_early _ _ H) as [-> | ->]; [now left | now right].
Qed.

Lemma POST_early_fst w e :
  outbound_request w = Throw e -> fst (POST w) = catch_block e.
Proof.
  intros H. destruct (POST_early _ _ H) as [-> | ->]; reflexivity.
Qed.

Lemma POST_early_outbound w e :
  outbound_request w = Throw e -> outbound (snd (POST w)) = [].
Proof.
  intros H. destruct (POST_early _ _ H) as [-> | ->]; reflexivity.
Qed.

Lemma try_block_inbound_early w e :
  inbound_request w = Throw e ->
  try_block w entry_state = (Throw e, entry_state).
Proof. intros H. rewrite try_block_shape, H. reflexivity. Qed.

Lemma POST_inbound_early w e :
  inbound_request w = Throw e -> POST w = (catch_block e, entry_state).
Proof.
  intros H. unfold POST. rewrite (try_block_inbound_early _ _ H).
  reflexivity.
Qed.

Lemma inbound_request_unread w e :
  req_json w = Throw e -> inbound_request w = Throw e.
Proof. intros H. unfold inbound_request. rewrite H. reflexivity. Qed.

Lemma POST_call w model url body :
  outbound_request w = Normal (model, url, body) ->
  POST w =
  let '(c, s) :=
    (response <- await (fetch w url body) ;;
     if negb (ok response) then backend_error response
     else backend_success model response) (calling url body) in
  (match c with Normal r => r | Throw e => catch_block e end,
   finally_block s).
Proof.
  intros H. unfold POST. rewrite (try_block_call _ _ _ _ H). reflexivity.
Qed.

(** Unfolding of the monadic steps, and case analysis on whatever the
    run still branches on. *)
Ltac run :=
  unfold backend_error, backend_success, bind, lift, ret, await,
    set_response_prop, finally_block, fire_timer, clearTimeout, calling;
  cbn [fst snd timeoutId pending outbound aborted response_props
       timers_created remove_timer Timeout_eqb timer_id Nat.eqb negb].

Ltac branch :=
  match goal with
  | |- context [match ?x with _ => _ end] =>
      lazymatch type of x with
      | async _ => destruct x as [[?|?]|] eqn:?
      | completion _ => destruct x as [?|?] eqn:?
      | bool => destruct x eqn:?
      end
  end.

Ltac runs := run; repeat (branch; run).

Lemma outbound_of_call w model url body :
  outbound_request w = Normal (model, url, body) ->
  outbound (snd (POST w)) = [(url, body)].
Proof.
  intros H. rewrite (POST_call _ _ _ _ H). runs; reflexivity.
Qed.

Lemma pending_of_call w model url body :
  outbound_request w = Normal (model, url, body) ->
  pending (snd (POST w)) = [].
Proof.
  intros H. rewrite (POST_call _ _ _ _ H). runs; reflexivity.
Qed.

Lemma call_issued w url body :
  In (url, body) (outbound (snd (POST w))) ->
  exists model, outbound_request w = Normal (model, url, body).
Proof.
  destruct (outbound_request w) as [[[model url'] body']|e] eqn:Hreq.
  - rewrite (outbound_of_call _ _ _ _ Hreq).
    intros [[= <- <-]|[]]. now exists model.
  - rewrite (POST_early_outbound _ _ Hreq). intros [].
Qed.

Lemma get_prop_field v prop :
  nullish v = false -> get_prop v prop = Normal (field v prop).
Proof. destruct v; simpl; intros; try discriminate; reflexivity. Qed.

Lemma get_prop_normal v prop x :
  get_prop v prop = Normal x -> nullish v = false /\ x = field v prop.
Proof. destruct v; simpl; intros [= <-]; split; reflexivity. Qed.




Lemma map_c_total {A B} (f : A -> completion B) l :
  Forall (fun x => exists y, f x = Normal y) l ->
  exists out, map_c f l = Normal out.
Proof.
  induction 1 as [|x l [y Hy] _ [ys Hys]]; simpl.
  - now exists [].
  - rewrite Hy, Hys. simpl. now exists (y :: ys).
Qed.

(** What lines 9 to 35 have established when the call is issued. *)
Lemma outbound_request_normal w model url body :
  outbound_request w = Normal (model, url, body) ->
  exists inbound items out,
    req_json w = Normal inbound /\
    field inbound "messages" = VArr items /\
    map_c to_ollama_message items = Normal out /\
    model = field inbound "model" /\
    (exists prefix,
       to_string (resolve_url w (field inbound "baseUrl")) = Normal prefix /\
       url = (prefix ++ "/api/chat")%string) /\
    body = VObj [("model", model); ("messages", VArr out);
                 ("stream", VBool false)].
Proof.
  unfold outbound_request, inbound_request, cbind.
  destruct (req_json w) as [inbound|]; [|discriminate].
  destruct inbound as [| | | | |items0|props]; simpl; try discriminate.
  - destruct (log_call w VUndefined _); discriminate.
  - destruct (log_call w VUndefined _); discriminate.
  - destruct (log_call w VUndefined _); discriminate.
  - destruct (log_call w VUndefined _); discriminate.
  - destruct (log_call w _ _); [|discriminate].
    destruct (lookup "messages" props) as [| | | | |items|] eqn:Hm;
      simpl; try discriminate.
    destruct (map_c to_ollama_message items) as [out|] eqn:Hout;
      [|discriminate].
    destruct (to_string _) as [prefix|] eqn:Hprefix; [|discriminate].
    intros [= <- <- <-].
    exists (VObj props), items, out. simpl. rewrite Hm.
    repeat split; try assumption. now exists prefix.
Qed.

(** A request with an array of messages, none of them [null], gets as
    far as the outbound call when line 13 and the URL of line 35 do
    not throw. *)
Lemma outbound_request_total w inbound items prefix :
  req_json w = Normal inbound ->
  field inbound "messages" = VArr items ->
  Forall (fun msg => nullish msg = false) items ->
  log_call w (field inbound "model")
    (resolve_url w (field inbound "baseUrl")) = Normal tt ->
  to_string (resolve_url w (field inbound "baseUrl")) = Normal prefix ->
  exists out,
    outbound_request w =
    Normal (field inbound "model", (prefix ++ "/api/chat")%string,
            VObj [("model", field inbound "model");
                  ("messages", VArr out); ("stream", VBool false)]).
Proof.
  intros Hreq Hm Hitems Hlog Hprefix.
  destruct (map_c_total to_ollama_message items) as [out Hout].
  { eapply Forall_impl; [|exact Hitems]. intros msg Hmsg.
    unfold to_ollama_message. rewrite !get_prop_field by exact Hmsg.
    simpl. eauto. }
  exists out. unfold outbound_request, inbound_request. rewrite Hreq.
  destruct inbound; simpl in Hm; try discriminate.
  simpl in *. rewrite Hlog, Hm. simpl. rewrite Hout. simpl.
  rewrite Hprefix. reflexivity.
Qed.

(** ** The outbound call *)


Lemma outbound_request_url_throw w inbound items e :
  req_json w = Normal inbound ->
  field inbound "messages" = VArr items ->
  Forall (fun msg => nullish msg = false) items ->
  log_call w (field inbound "model")
    (resolve_url w (field inbound "baseUrl")) = Normal tt ->
  to_string (resolve_url w (field inbound "baseUrl")) = Throw e ->
  outbound_request w = Throw e.
Proof.
  intros Hreq Hm Hitems Hlog Hprefix.
  destruct (map_c_total to_ollama_message items) as [out Hout].
  { eapply Forall_impl; [|exact Hitems]. intros msg Hmsg.
    unfold to_ollama_message. rewrite !get_prop_field by exact Hmsg.
    simpl. eauto. }
  unfold outbound_request, inbound_request. rewrite Hreq.
  destruct inbound; simpl in Hm; try discriminate.
  simpl in *. rewrite Hlog, Hm. simpl. rewrite Hout. simpl.
  rewrite Hprefix. reflexivity.
Qed.

Lemma log_call_quiet w model ollamaUrl :
  debug w = false -> log_call w model ollamaUrl = Normal tt.
Proof. intros H. unfold log_call. rewrite H. reflexivity. Qed.

(** C6, as the code has it, for a request whose messages are an array
    without [null] and on which line 13 does not throw (it is evaluated
    only with [DEBUG_OLLAMA] set to 1).  A truthy [baseUrl] is converted
    to a string and is the prefix of [/api/chat] (a non-empty string
    verbatim); when the conversion throws, no call is issued and the
    error goes to the [catch] block.  When [baseUrl] is absent, [null]
    or empty, a non-empty [OLLAMA_URL] is the prefix; otherwise
    [http://localhost:11434] is.  The call is the only one issued. *)
Theorem endpoint_resolution w inbound items :
  req_json w = Normal inbound ->
  field inbound "messages" = VArr items ->
  Forall (fun msg => nullish msg = false) items ->
  log_call w (field inbound "model")
    (resolve_url w (field inbound "baseUrl")) = Normal tt ->
  let baseUrl := field inbound "baseUrl" in
  let urls := map fst (outbound (snd (POST w))) in
  (truthy baseUrl = true ->
   forall prefix, to_string baseUrl = Normal prefix ->
   urls = [(prefix ++ "/api/chat")%string]) /\
  (truthy baseUrl = true ->
   forall e, to_string baseUrl = Throw e ->
   urls = [] /\ fst (POST w) = catch_block e) /\
  (forall prefix, baseUrl = VStr prefix -> prefix <> EmptyString ->
   urls = [(prefix ++ "/api/chat")%string]) /\
  (truthy baseUrl = false ->
   forall env, OLLAMA_URL w = Some env -> env <> EmptyString ->
   urls = [(env ++ "/api/chat")%string]) /\
  (truthy baseUrl = false ->
   OLLAMA_URL w = None \/ OLLAMA_URL w = Some EmptyString ->
   urls = ["http://localhost:11434/api/chat"]).
Proof.
  intros Hjson Hm Hitems Hlog baseUrl urls.
  assert (Hcall : forall prefix,
            to_string (resolve_url w baseUrl) = Normal prefix ->
            urls = [(prefix ++ "/api/chat")%string]).
  { intros prefix Hprefix.
    destruct (outbound_request_total w inbound items prefix
                Hjson Hm Hitems Hlog Hprefix) as [out Hreq].
    unfold urls. rewrite (outbound_of_call _ _ _ _ Hreq). reflexivity. }
  assert (Hne : forall x : string,
            x <> EmptyString -> truthy (VStr x) = true).
  { intros x Hx. simpl. destruct x; [contradiction|reflexivity]. }
  assert (Htruthy : truthy baseUrl = true -> resolve_url w baseUrl = baseUrl).
  { intros Hb. unfold resolve_url, js_or. rewrite Hb. cbv iota.
    rewrite Hb. reflexivity. }
  split; [|split; [|split; [|split]]].
  - intros Hb prefix Hprefix. apply Hcall.
    rewrite (Htruthy Hb). exact Hprefix.
  - intros Hb e He. rewrite <- (Htruthy Hb) in He.
    pose proof (outbound_request_url_throw w inbound items e
                  Hjson Hm Hitems Hlog He) as Hreq.
    unfold urls. rewrite (POST_early_outbound _ _ Hreq).
    split; [reflexivity | exact (POST_early_fst _ _ Hreq)].
  - intros prefix Hs Hne'. apply Hcall.
    rewrite (Htruthy (eq_trans (f_equal truthy Hs) (Hne prefix Hne'))), Hs.
    reflexivity.
  - intros Hb env Henv Hne'. apply Hcall.
    unfold resolve_url, js_or. rewrite Henv, Hb. cbv iota.
    rewrite (Hne env Hne'). reflexivity.
  - intros Hb [Henv | Henv]; apply (Hcall default_url);
      unfold resolve_url, js_or; rewrite Henv, Hb; reflexivity.
Qed.

(** ** The successful result *)

Lemma extract_text_normal data :
  nullish data = false ->
  extract_text data =
  Normal (let content := field (field data "message") "content" in
          let answer := field data "response" in
          if truthy content then content
          else if truthy answer then answer
          else VStr placeholder).
Proof.
  intros Hdata. unfold extract_text.
  rewrite !(get_prop_field data) by exact Hdata. cbn [cbind].
  destruct (field data "message") as [| |[|]|f|x|items|props] eqn:Hm;
    cbn -[placeholder];
    repeat (match goal with
            | |- context [if ?b then _ else _] => destruct b eqn:?
            end; cbn -[placeholder]);
    congruence.
Qed.

Lemma extract_text_throw data e :
  extract_text data = Throw e ->
  e = type_error (cannot_read data "message").
Proof.
  destruct (nullish data) eqn:Hdata.
  - destruct data; try discriminate; cbn; intros [= <-]; reflexivity.
  - rewrite (extract_text_normal _ Hdata). discriminate.
Qed.

Lemma available_models_total modelList :
  forallb (fun m => negb (nullish m)) modelList = true ->
  exists names, available_models modelList = Normal names.
Proof.
  intros H. unfold available_models.
  destruct (map_c_total (fun m => get_prop m "name") modelList)
    as [names Hnames].
  { apply Forall_forall. intros m Hm.
    rewrite forallb_forall in H. specialize (H m Hm).
    exists (field m "name"). apply get_prop_field.
    now destruct (nullish m). }
  rewrite Hnames. simpl. eauto.
Qed.

Lemma catch_block_status e :
  http_status (catch_block e) <> 200%N.
Proof. unfold catch_block. destruct (is_abort e); discriminate. Qed.

(** C2, as the code has it, on a 2xx body that is not [null], with a
    string model and no [null] in the model list: the handler returns
    200, and [text] is the message content when that is truthy (a
    non-empty string exactly), else the flat [response] when that is
    truthy, else the placeholder. *)
Theorem text_by_priority w url body response data model :
  outbound (snd (POST w)) = [(url, body)] ->
  fetch w url body = Settled (Normal response) ->
  ok response = true ->
  json response = Settled (Normal data) ->
  nullish data = false ->
  field body "model" = VStr model ->
  forallb (fun m => negb (nullish m)) (model_list data) = true ->
  let content := field (field data "message") "content" in
  let answer := field data "response" in
  let result := body_field (fst (POST w)) "text" in
  http_status (fst (POST w)) = 200%N /\
  (truthy content = true -> result = content) /\
  (forall c, content = VStr c -> c <> EmptyString -> result = VStr c) /\
  (truthy content = false -> truthy answer = true -> result = answer) /\
  (forall r, truthy content = false -> answer = VStr r ->
     r <> EmptyString -> result = VStr r) /\
  (truthy content = false -> truthy answer = false ->
   result = VStr "No response from Ollama").
Proof.
  intros Hcall Hfetch Hok Hjson Hdata Hmodel Hlist content answer result.
  assert (Hin : In (url, body) (outbound (snd (POST w))))
    by (rewrite Hcall; left; reflexivity).
  apply call_issued in Hin as [model0 Hreq].
  destruct (outbound_request_normal _ _ _ _ Hreq)
    as (inbound & items & out & _ & _ & _ & _ & _ & Hbody).
  rewrite Hbody in Hmodel. cbn in Hmodel. subst model0.
  destruct (available_models_total _ Hlist) as [names Hnames].
  assert (Hpost : fst (POST w) =
            {| http_status := 200;
               http_body :=
                 VObj [("text", if truthy content then content
                                else if truthy answer then answer
                                else VStr placeholder);
                       ("raw", data)] |}).
  { rewrite (POST_call _ _ _ _ Hreq). run. rewrite Hfetch, Hok. run.
    rewrite Hjson, (extract_text_normal _ Hdata). cbn [toLowerCase].
    destruct (_ && _); [rewrite Hnames|]; reflexivity. }
  assert (Hne : forall x : string,
            x <> EmptyString -> truthy (VStr x) = true).
  { intros x Hx. simpl. destruct x; [contradiction|reflexivity]. }
  unfold result. rewrite Hpost. unfold body_field. cbn [http_body field lookup String.eqb Ascii.eqb Bool.eqb http_status].
  repeat split.
  - intros ->. reflexivity.
  - intros c Hc Hc'. rewrite Hc, (Hne c Hc'). reflexivity.
  - intros -> ->. reflexivity.
  - intros r -> Hr Hr'. rewrite Hr, (Hne r Hr'). reflexivity.
  - intros -> ->. reflexivity.
Qed.

(** The body the handler returns never has an [availableModels]
    property, on any path. *)
Lemma result_never_lists_models w :
  body_field (fst (POST w)) "availableModels" = VUndefined.
Proof.
  destruct (outbound_request w) as [[[model url] body]|e] eqn:Hreq.
  - rewrite (POST_call _ _ _ _ Hreq). unfold body_field.
    runs; unfold catch_block; repeat (branch; run); reflexivity.
  - rewrite (POST_early_fst _ _ Hreq). unfold body_field, catch_block.
    destruct (is_abort e); reflexivity.
Qed.

(** ** Backend rejections *)

(** C3, as the code has it: when the backend answers the outbound call
    with a status outside 200..299 and its body text is read, the
    handler returns 502 whatever that status is; [details] is the
    backend's body text and [code] the backend's status.  When reading
    the body text fails, the error goes to the [catch] block like any
    other; when the deadline fires during the read, the answer is 504. *)
Theorem backend_rejection_is_502 w url body response :
  outbound (snd (POST w)) = [(url, body)] ->
  fetch w url body = Settled (Normal response) ->
  ok response = false ->
  (forall errorText,
     text response = Settled (Normal errorText) ->
     http_status (fst (POST w)) = 502%N /\
     body_field (fst (POST w)) "details" = VStr errorText /\
     body_field (fst (POST w)) "code"
       = VNum (N_to_float (status response)) /\
     body_field (fst (POST w)) "provider" = VStr "ollama") /\
  (forall e,
     text response = Settled (Throw e) ->
     fst (POST w) = catch_block e) /\
  (text response = DeadlineFirst ->
   http_status (fst (POST w)) = 504%N /\ aborted (snd (POST w)) = true).
Proof.
  intros Hcall Hfetch Hok.
  assert (Hin : In (url, body) (outbound (snd (POST w))))
    by (rewrite Hcall; left; reflexivity).
  apply call_issued in Hin as [model Hreq].
  rewrite (POST_call _ _ _ _ Hreq).
  run. rewrite Hfetch, Hok. run.
  split; [|split].
  - intros errorText ->. repeat split.
  - intros e ->. reflexivity.
  - intros ->. split; reflexivity.
Qed.

(** ** The deadline *)

(** C4: when the 45-second timer fires while the outbound call is in
    flight, the handler returns 504 with the fixed message and provider
    [ollama]; the status is none of 200, 500 and 502, and the controller
    has been aborted by the timer the handler armed. *)
Theorem deadline_is_504 w url body :
  outbound (snd (POST w)) = [(url, body)] ->
  deadline_exceeded w url body = true ->
  fst (POST w) =
    {| http_status := 504;
       http_body := VObj [("error", VStr "Ollama request timed out");
                          ("provider", VStr "ollama");
                          ("code", VNum 504%float)] |} /\
  http_status (fst (POST w)) <> 200%N /\
  http_status (fst (POST w)) <> 500%N /\
  http_status (fst (POST w)) <> 502%N /\
  aborted (snd (POST w)) = true /\
  timeoutId (snd (POST w)) = Some {| timer_id := 0; delay := 45000 |}.
Proof.
  intros Hcall Hdead.
  destruct (outbound_request w) as [[[model url'] body']|e] eqn:Hreq.
  - rewrite (outbound_of_call _ _ _ _ Hreq) in Hcall.
    injection Hcall as -> ->.
    rewrite (POST_call _ _ _ _ Hreq).
    unfold deadline_exceeded in Hdead. run.
    destruct (fetch w url body) as [[response|e]|]; try discriminate.
    + run. destruct (ok response); run.
      * destruct (json response) as [[?|?]|]; try discriminate.
        repeat split; discriminate.
      * destruct (text response) as [[?|?]|]; try discriminate.
        repeat split; discriminate.
    + repeat split; discriminate.
  - rewrite (POST_early_outbound _ _ Hreq) in Hcall. discriminate.
Qed.

(** C9: whichever way the handler returns, no timer is left pending.
    Whenever the outbound call was issued, the timer the handler holds
    is the 45-second one it armed, and unless that timer has fired it is
    still pending when the [try] block ends: the [finally] block is what
    clears it. *)
Theorem timer_always_cleared w :
  pending (snd (POST w)) = [] /\
  (outbound (snd (POST w)) <> [] ->
   timeoutId (snd (POST w)) = Some {| timer_id := 0; delay := 45000 |}) /\
  (outbound (snd (POST w)) <> [] ->
   aborted (snd (POST w)) = false ->
   pending (snd (try_block w entry_state)) =
     [{| timer_id := 0; delay := 45000 |}]).
Proof.
  destruct (outbound_request w) as [[[model url] body]|e] eqn:Hreq.
  - split; [exact (pending_of_call _ _ _ _ Hreq)|].
    rewrite (POST_call _ _ _ _ Hreq), (try_block_call _ _ _ _ Hreq).
    split; intros _; runs; try reflexivity; discriminate.
  - destruct (POST_early _ _ Hreq) as [-> | ->];
      (split; [reflexivity|]);
      split; intros H; exfalso; apply H; reflexivity.
Qed.

(** ** Other failures *)

Lemma catch_error_object name message :
  name <> "AbortError" -> message <> EmptyString ->
  catch_block (error_object name message) = server_error message.
Proof.
  intros Hname Hmessage.
  apply String.eqb_neq in Hname. apply String.eqb_neq in Hmessage.
  unfold catch_block, is_abort, js_or, server_error. cbn.
  rewrite Hname. cbn. rewrite Hmessage. reflexivity.
Qed.

Lemma catch_type_error message :
  message <> EmptyString ->
  catch_block (type_error message) = server_error message.
Proof. apply catch_error_object. discriminate. Qed.

Lemma POST_thrown w e :
  thrown w e -> fst (POST w) = catch_block e.
Proof.
  unfold thrown, POST. destruct (try_block w entry_state) as [c s].
  cbn. intros ->. reflexivity.
Qed.

(** The failures the handler does not raise itself. *)
Lemma inbound_failure_thrown w e :
  req_json w = Throw e -> thrown w e.
Proof.
  intros H. unfold thrown.
  rewrite (try_block_inbound_early w e); [reflexivity|].
  now apply inbound_request_unread.
Qed.

Lemma transport_failure_thrown w url body e :
  outbound (snd (POST w)) = [(url, body)] ->
  fetch w url body = Settled (Throw e) -> thrown w e.
Proof.
  intros Hcall Hfetch.
  assert (Hin : In (url, body) (outbound (snd (POST w))))
    by (rewrite Hcall; left; reflexivity).
  apply call_issued in Hin as [model Hreq].
  unfold thrown. rewrite (try_block_call _ _ _ _ Hreq). run.
  rewrite Hfetch. reflexivity.
Qed.

Lemma malformed_body_thrown w url body response e :
  outbound (snd (POST w)) = [(url, body)] ->
  fetch w url body = Settled (Normal response) ->
  ok response = true ->
  json response = Settled (Throw e) -> thrown w e.
Proof.
  intros Hcall Hfetch Hok Hjson.
  assert (Hin : In (url, body) (outbound (snd (POST w))))
    by (rewrite Hcall; left; reflexivity).
  apply call_issued in Hin as [model Hreq].
  unfold thrown. rewrite (try_block_call _ _ _ _ Hreq). run.
  rewrite Hfetch, Hok. run. rewrite Hjson. reflexivity.
Qed.

Lemma unread_rejection_thrown w url body response e :
  outbound (snd (POST w)) = [(url, body)] ->
  fetch w url body = Settled (Normal response) ->
  ok response = false ->
  text response = Settled (Throw e) -> thrown w e.
Proof.
  intros Hcall Hfetch Hok Htext.
  assert (Hin : In (url, body) (outbound (snd (POST w))))
    by (rewrite Hcall; left; reflexivity).
  apply call_issued in Hin as [model Hreq].
  unfold thrown. rewrite (try_block_call _ _ _ _ Hreq). run.
  rewrite Hfetch, Hok. run. rewrite Htext. reflexivity.
Qed.

(** C8, as the code has it: whatever the [try] block throws, unless it
    is named [AbortError], the handler returns 500 with provider
    [ollama]; [error] is the thrown value's message when that is truthy
    (the message of an [Error] that has one), and [Unknown error]
    otherwise. *)
Theorem other_failures_are_500 w e :
  thrown w e ->
  is_abort e = false ->
  let message := field e "message" in
  http_status (fst (POST w)) = 500%N /\
  body_field (fst (POST w)) "provider" = VStr "ollama" /\
  (truthy message = true ->
   body_field (fst (POST w)) "error" = message) /\
  (forall name described,
     e = error_object name described -> described <> EmptyString ->
     fst (POST w) = server_error described) /\
  (truthy message = false ->
   fst (POST w) = server_error "Unknown error").
Proof.
  intros Hthrown Habort message.
  rewrite (POST_thrown _ _ Hthrown).
  assert (Hcatch : catch_block e =
            {| http_status := 500;
               http_body :=
                 VObj [("error", js_or message (VStr "Unknown error"));
                       ("provider", VStr "ollama")] |}).
  { unfold catch_block. rewrite Habort. reflexivity. }
  repeat split.
  - rewrite Hcatch. reflexivity.
  - rewrite Hcatch. reflexivity.
  - intros Hm. rewrite Hcatch. unfold body_field, js_or. cbn.
    rewrite Hm. reflexivity.
  - intros name described -> Hd. apply catch_error_object; [|exact Hd].
    intros ->. discriminate.
  - intros Hm. rewrite Hcatch. unfold js_or. rewrite Hm. reflexivity.
Qed.

(** ** Malformed inbound requests *)







(** ** After the parse of a 2xx body *)

Lemma extract_text_normal_inv data result :
  extract_text data = Normal result -> nullish data = false.
Proof.
  destruct (nullish data) eqn:Hdata; [|reflexivity].
  destruct data; try discriminate; cbn; discriminate.
Qed.

Lemma extract_text_truthy data result :
  extract_text data = Normal result -> truthy result = true.
Proof.
  intros H. pose proof (extract_text_normal_inv _ _ H) as Hdata.
  rewrite (extract_text_normal _ Hdata) in H. injection H as <-.
  cbv zeta.
  destruct (truthy (field (field data "message") "content")) eqn:Hc;
    [exact Hc|].
  destruct (truthy (field data "response")) eqn:Hr; [exact Hr|].
  reflexivity.
Qed.

Lemma toLowerCase_normal_inv model slug :
  toLowerCase model = Normal slug ->
  exists requested,
    model = VStr requested /\ slug = String_toLowerCase requested.
Proof.
  destruct model; try discriminate. intros [= <-]. eauto.
Qed.

Lemma names_normal modelList names :
  map_c (fun m => get_prop m "name") modelList = Normal names ->
  forallb (fun m => negb (nullish m)) modelList = true /\
  names = map (fun m => field m "name") modelList.
Proof.
  revert names. induction modelList as [|m l IH]; cbn; intros names.
  - intros [= <-]. split; reflexivity.
  - destruct (get_prop m "name") as [name|] eqn:Hm; [|discriminate].
    destruct (map_c (fun m0 => get_prop m0 "name") l) as [rest|];
      [|discriminate].
    cbn. intros [= <-].
    apply get_prop_normal in Hm as [Hm ->]. rewrite Hm.
    destruct (IH rest eq_refl) as [Hl ->]. split; [exact Hl|reflexivity].
Qed.

Lemma names_throw modelList :
  forallb (fun m => negb (nullish m)) modelList = false ->
  exists m,
    In m modelList /\ nullish m = true /\
    map_c (fun m0 => get_prop m0 "name") modelList =
    Throw (type_error (cannot_read m "name")).
Proof.
  induction modelList as [|m l IH]; cbn; [discriminate|].
  destruct (nullish m) eqn:Hm; cbn.
  - intros _. exists m. repeat split; [now left | exact Hm |].
    destruct m; try discriminate; reflexivity.
  - intros Hl. destruct (IH Hl) as (m' & Hin & Hm' & Hthrow).
    exists m'. repeat split; [now right | exact Hm' |].
    rewrite (get_prop_field m) by exact Hm. cbn. rewrite Hthrow.
    reflexivity.
Qed.

Lemma available_models_normal modelList names :
  available_models modelList = Normal names ->
  forallb (fun m => negb (nullish m)) modelList = true /\
  names = VArr (listed_names modelList).
Proof.
  unfold available_models, cbind.
  destruct (map_c (fun m => get_prop m "name") modelList) as [ns|] eqn:H;
    [|discriminate].
  apply names_normal in H as [Hl ->]. intros [= <-].
  split; [exact Hl | reflexivity].
Qed.

Lemma is_requested_iff slug m :
  is_requested slug m = true <-> field m "name" = VStr slug.
Proof.
  unfold is_requested.
  destruct m as [| |b|f|x|items|props]; cbn;
    try (split; [intros H; try rewrite andb_false_r in H|]; discriminate).
  destruct (lookup "name" props) as [| | | |name| |];
    try (split; discriminate).
  split.
  - intros H. apply String.eqb_eq in H. now subst.
  - intros [= ->]. apply String.eqb_refl.
Qed.

Lemma find_model_truthy slug modelList :
  truthy (find_model slug modelList) = true <->
  exists m, In m modelList /\ field m "name" = VStr slug.
Proof.
  unfold find_model.
  destruct (find (is_requested slug) modelList) as [m|] eqn:Hfind.
  - apply find_some in Hfind as [Hin Hm].
    split.
    + intros _. exists m. split; [exact Hin|]. now apply is_requested_iff.
    + intros _. apply is_requested_iff in Hm.
      destruct m; try discriminate. reflexivity.
  - split; [discriminate|].
    intros (m & Hin & Hm). apply is_requested_iff in Hm.
    rewrite (find_none _ _ Hfind m Hin) in Hm. discriminate.
Qed.

(** The run of lines 57 to 95 on a body that parsed, when the later
    steps go through. *)
Lemma backend_success_completes model response data s :
  json response = Settled (Normal data) ->
  completes model data = true ->
  exists requested result,
    model = VStr requested /\
    extract_text data = Normal result /\
    backend_success model response s =
    (Normal {| http_status := 200;
               http_body := VObj [("text", result); ("raw", data)] |},
     if truthy (find_model (String_toLowerCase requested) (model_list data))
        || (length (model_list data) =? 0)%nat
     then s
     else {| timeoutId := timeoutId s; pending := pending s;
             timers_created := timers_created s; aborted := aborted s;
             outbound := outbound s;
             response_props :=
               ("availableModels", VArr (listed_names (model_list data)))
               :: response_props s |}).
Proof.
  intros Hjson Hc. unfold completes in Hc.
  apply andb_true_iff in Hc as [Hdata Hc].
  apply negb_true_iff in Hdata.
  destruct model as [| | | |requested| |]; try discriminate.
  exists requested. eexists. split; [reflexivity|].
  split; [exact (extract_text_normal _ Hdata)|].
  unfold backend_success, bind, lift, ret, await, set_response_prop.
  rewrite Hjson, (extract_text_normal _ Hdata). cbn [toLowerCase].
  cbv zeta in Hc.
  destruct (truthy (find_model (String_toLowerCase requested)
                      (model_list data))) eqn:Hfound; cbn [negb andb orb].
  { reflexivity. }
  destruct (model_list data) as [|m l] eqn:Hlist; [reflexivity|].
  cbn [length Nat.ltb Nat.leb Nat.eqb orb] in Hc |- *.
  destruct (available_models_total _ Hc) as [names Hnames].
  rewrite Hnames.
  apply available_models_normal in Hnames as [_ ->]. reflexivity.
Qed.

(** The same run when one of the later steps throws. *)
Lemma backend_success_fails model response data s :
  json response = Settled (Normal data) ->
  completes model data = false ->
  exists message,
    message <> EmptyString /\
    backend_success model response s = (Throw (type_error message), s) /\
    (nullish data = true -> message = cannot_read data "message") /\
    (nullish data = false -> forall requested, model = VStr requested ->
     exists m, In m (model_list data) /\ nullish m = true /\
               message = cannot_read m "name").
Proof.
  intros Hjson Hc. unfold completes in Hc.
  unfold backend_success, bind, lift, ret, await, set_response_prop.
  rewrite Hjson.
  destruct (nullish data) eqn:Hdata.
  - exists (cannot_read data "message").
    split; [destruct data; discriminate|].
    split; [destruct data; try discriminate; reflexivity|].
    split; [reflexivity | discriminate].
  - rewrite (extract_text_normal _ Hdata). cbn [negb andb] in Hc.
    destruct model as [| | | |requested| |];
      try (eexists; split; [|split; [reflexivity|split; discriminate]];
           discriminate).
    cbn [toLowerCase]. cbv zeta in Hc.
    apply orb_false_iff in Hc as [Hc Hnull].
    apply orb_false_iff in Hc as [Hfound Hlen].
    rewrite Hfound. cbn [negb andb].
    destruct (model_list data) as [|m0 l] eqn:Hlist; [discriminate|].
    cbn [length Nat.ltb Nat.leb].
    destruct (names_throw _ Hnull) as (m & Hin & Hm & Hthrow).
    exists (cannot_read m "name"). unfold available_models, cbind.
    rewrite Hthrow.
    split; [destruct m; discriminate|].
    split; [reflexivity|].
    split; [discriminate|].
    intros _ requested' _. exists m. repeat split; assumption.
Qed.

(** The handler on a 2xx answer whose body parsed. *)
Lemma POST_parsed w url body response data :
  outbound (snd (POST w)) = [(url, body)] ->
  fetch w url body = Settled (Normal response) ->
  ok response = true ->
  json response = Settled (Normal data) ->
  POST w =
  let '(c, s) :=
    backend_success (field body "model") response (calling url body) in
  (match c with Normal r => r | Throw e => catch_block e end,
   finally_block s).
Proof.
  intros Hcall Hfetch Hok Hjson.
  assert (Hin : In (url, body) (outbound (snd (POST w))))
    by (rewrite Hcall; left; reflexivity).
  apply call_issued in Hin as [model Hreq].
  destruct (outbound_request_normal _ _ _ _ Hreq)
    as (inbound & items & out & _ & _ & _ & _ & _ & Hbody).
  rewrite (POST_call _ _ _ _ Hreq).
  unfold bind at 1. unfold await at 1. rewrite Hfetch, Hok.
  cbn [negb]. rewrite Hbody. reflexivity.
Qed.

(** What a 200 tells about the run. *)
Lemma POST_200_inv w :
  http_status (fst (POST w)) = 200%N ->
  exists url body response data result,
    outbound (snd (POST w)) = [(url, body)] /\
    fetch w url body = Settled (Normal response) /\
    ok response = true /\
    json response = Settled (Normal data) /\
    completes (field body "model") data = true /\
    extract_text data = Normal result /\
    fst (POST w) =
      {| http_status := 200;
         http_body := VObj [("text", result); ("raw", data)] |}.
Proof.
  intros H200.
  destruct (outbound_request w) as [[[model url] body]|e] eqn:Hreq.
  2:{ rewrite (POST_early_fst _ _ Hreq) in H200.
      exfalso. exact (catch_block_status _ H200). }
  pose proof (outbound_of_call _ _ _ _ Hreq) as Hcall.
  destruct (fetch w url body) as [[response|e]|] eqn:Hfetch.
  - destruct (ok response) eqn:Hok.
    + destruct (json response) as [[data|e]|] eqn:Hjson.
      * pose proof (POST_parsed _ _ _ _ _ Hcall Hfetch Hok Hjson) as Hpost.
        destruct (completes (field body "model") data) eqn:Hc.
        -- destruct (backend_success_completes _ response data
                       (calling url body) Hjson Hc)
             as (requested & result & _ & Htext & Hrun).
           exists url, body, response, data, result.
           rewrite Hrun in Hpost.
           repeat (split; [assumption|]).
           rewrite Hpost. reflexivity.
        -- destruct (backend_success_fails _ response data
                       (calling url body) Hjson Hc)
             as (message & _ & Hrun & _).
           rewrite Hrun in Hpost. rewrite Hpost in H200.
           exfalso. exact (catch_block_status _ H200).
      * exfalso. revert H200. rewrite (POST_call _ _ _ _ Hreq). run.
        rewrite Hfetch, Hok. run. rewrite Hjson.
        apply catch_block_status.
      * exfalso. revert H200. rewrite (POST_call _ _ _ _ Hreq). run.
        rewrite Hfetch, Hok. run. rewrite Hjson.
        apply catch_block_status.
    + exfalso. revert H200. rewrite (POST_call _ _ _ _ Hreq). run.
      rewrite Hfetch, Hok. run.
      destruct (text response) as [[errorText|e]|];
        [discriminate | apply catch_block_status
         | apply catch_block_status].
  - exfalso. revert H200. rewrite (POST_call _ _ _ _ Hreq). run.
    rewrite Hfetch. apply catch_block_status.
  - exfalso. revert H200. rewrite (POST_call _ _ _ _ Hreq). run.
    rewrite Hfetch. apply catch_block_status.
Qed.

Lemma stringify_success result data :
  truthy result = true -> nullish data = false ->
  JSON_stringify (VObj [("text", result); ("raw", data)]) =
  VObj [("text", JSON_stringify result); ("raw", JSON_stringify data)].
Proof.
  intros Hresult Hdata.
  destruct result; try discriminate; destruct data; try discriminate;
    reflexivity.
Qed.

Lemma stringify_truthy result :
  truthy result = true ->
  JSON_stringify result <> VStr EmptyString /\
  JSON_stringify result <> VUndefined /\
  (JSON_stringify result = VNull ->
   exists f, result = VNum f /\ PrimFloat.is_finite f = false).
Proof.
  destruct result as [| |b|f|x|items|props]; cbn; try discriminate;
    intros H.
  - repeat split; discriminate.
  - destruct (PrimFloat.is_finite f) eqn:Hf.
    + destruct (is_negative_zero f); repeat split; discriminate.
    + repeat split; try discriminate. intros _. now exists f.
  - repeat split; try discriminate.
    intros [= ->]. discriminate.
  - repeat split; discriminate.
  - repeat split; discriminate.
Qed.

(** C5, as the code has it: whenever the handler returns 200, it issued
    the outbound call, the backend answered with a 2xx status and a
    body that parsed, and that parsed body is what the handler hands to
    [Response.json] as [raw].  What the caller receives as [raw] is that
    body as [JSON.stringify] writes it: the body itself when every
    number in it is finite and not negative zero, and otherwise the
    body with those numbers written [null] and [0]. *)
Theorem raw_is_backend_body w :
  http_status (fst (POST w)) = 200%N ->
  exists url body response data,
    outbound (snd (POST w)) = [(url, body)] /\
    fetch w url body = Settled (Normal response) /\
    ok response = true /\
    json response = Settled (Normal data) /\
    body_field (fst (POST w)) "raw" = data /\
    field (received (fst (POST w))) "raw" = JSON_stringify data /\
    (json_stable data = true ->
     field (received (fst (POST w))) "raw" = data).
Proof.
  intros H. apply POST_200_inv in H
    as (url & body & response & data & result & Hcall & Hfetch & Hok
        & Hjson & _ & Htext & Hpost).
  exists url, body, response, data.
  repeat (split; [assumption|]).
  pose proof (extract_text_truthy _ _ Htext) as Hresult.
  pose proof (extract_text_normal_inv _ _ Htext) as Hdata.
  unfold received, body_field. rewrite Hpost. cbn [http_body].
  rewrite (stringify_success _ _ Hresult Hdata).
  split; [reflexivity|]. split; [reflexivity|].
  intros Hstable. cbn. now apply JSON_stringify_stable.
Qed.

Lemma try_block_outcome w :
  match try_block w entry_state with
  | (Normal r, s) =>
      (http_status r = 200%N \/ http_status r = 502%N) /\
      aborted s = false
  | (Throw e, s) => aborted s = true -> e = abort_error
  end.
Proof.
  destruct (outbound_request w) as [[[model url] body]|e] eqn:Hreq.
  - rewrite (try_block_call _ _ _ _ Hreq).
    runs;
      first [ split; [first [left; reflexivity | right; reflexivity]
                     | reflexivity]
            | intros; first [reflexivity | discriminate] ].
  - destruct (try_block_early _ _ Hreq) as [-> | ->]; discriminate.
Qed.

Lemma aborted_finally s : aborted (finally_block s) = aborted s.
Proof. unfold finally_block. destruct (timeoutId s); reflexivity. Qed.

Lemma In_firstn {A} (x : A) n l : In x (firstn n l) -> In x l.
Proof.
  revert l. induction n as [|n IH]; intros [|y l]; cbn; try tauto.
  intros [-> | H]; [now left | right; now apply IH].
Qed.

(** ** Further properties of the handler *)

(** X1: the handler answers with 200, 500, 502 or 504 and nothing else;
    it answers 504 exactly when the [try] block threw a value named
    [AbortError] and 500 exactly when it threw any other value; and
    whenever the controller was aborted the answer is 504. *)
Theorem status_classification w :
  (http_status (fst (POST w)) = 200%N \/
   http_status (fst (POST w)) = 500%N \/
   http_status (fst (POST w)) = 502%N \/
   http_status (fst (POST w)) = 504%N) /\
  (http_status (fst (POST w)) = 504%N <->
   exists e, thrown w e /\ is_abort e = true) /\
  (http_status (fst (POST w)) = 500%N <->
   exists e, thrown w e /\ is_abort e = false) /\
  (aborted (snd (POST w)) = true -> http_status (fst (POST w)) = 504%N).
Proof.
  pose proof (try_block_outcome w) as Hout.
  unfold thrown, POST.
  destruct (try_block w entry_state) as [[r|e] s]; cbn [fst snd].
  - destruct Hout as [Hstatus Habort].
    split; [destruct Hstatus as [-> | ->]; auto|].
    split; [|split].
    + split; [destruct Hstatus as [H | H]; rewrite H; discriminate|].
      intros (e & [=] & _).
    + split; [destruct Hstatus as [H | H]; rewrite H; discriminate|].
      intros (e & [=] & _).
    + rewrite aborted_finally, Habort. discriminate.
  - unfold catch_block. destruct (is_abort e) eqn:Habort; cbn.
    + split; [auto|]. split; [|split].
      * split; [intros _; now exists e|reflexivity].
      * split; [discriminate|]. intros (e' & [= <-] & H). congruence.
      * reflexivity.
    + split; [auto|]. split; [|split].
      * split; [discriminate|]. intros (e' & [= <-] & H). congruence.
      * split; [intros _; now exists e|reflexivity].
      * rewrite aborted_finally. intros H. specialize (Hout H).
        subst e. discriminate.
Qed.

(** X2: the handler answers 200 exactly when it issued the call, the
    backend answered with a 2xx status and a body that parsed, that
    body is not [null], the requested model is a string, and the model
    list either holds an entry named as the lowercased model, or is
    empty, or holds no [null]. *)
Theorem success_iff w :
  http_status (fst (POST w)) = 200%N <->
  exists url body response data,
    outbound (snd (POST w)) = [(url, body)] /\
    fetch w url body = Settled (Normal response) /\
    ok response = true /\
    json response = Settled (Normal data) /\
    completes (field body "model") data = true.
Proof.
  split.
  - intros H. apply POST_200_inv in H
      as (url & body & response & data & result & H).
    exists url, body, response, data. tauto.
  - intros (url & body & response & data & Hcall & Hfetch & Hok & Hjson
            & Hc).
    rewrite (POST_parsed _ _ _ _ _ Hcall Hfetch Hok Hjson).
    destruct (backend_success_completes _ response data (calling url body)
                Hjson Hc) as (requested & result & _ & _ & Hrun).
    rewrite Hrun. reflexivity.
Qed.

(** X3: the handler issues at most one outbound call and creates at
    most one timer; it never issues a call without having armed the
    timer first; and it holds a timer exactly when it created one. *)
Theorem one_call_one_timer w :
  (length (outbound (snd (POST w))) <= 1)%nat /\
  (timers_created (snd (POST w)) <= 1)%nat /\
  (length (outbound (snd (POST w))) <= timers_created (snd (POST w)))%nat /\
  (timeoutId (snd (POST w)) = None <-> timers_created (snd (POST w)) = 0).
Proof.
  destruct (outbound_request w) as [[[model url] body]|e] eqn:Hreq.
  - rewrite (POST_call _ _ _ _ Hreq).
    runs; repeat split; try discriminate; apply le_n.
  - destruct (POST_early _ _ Hreq) as [-> | ->]; cbn;
      repeat split; try discriminate; auto using le_n, le_S.
Qed.

(** X4: the requested model is found exactly when some entry of the
    model list has a string [name] equal to the lowercased request; the
    names are compared as they are, so an entry named as the request was
    typed does not match when lowercasing changes the request. *)
Theorem model_found_iff_lowercased_name requested modelList :
  (truthy (find_model (String_toLowerCase requested) modelList) = true <->
   exists m, In m modelList /\
             field m "name" = VStr (String_toLowerCase requested)) /\
  (String_toLowerCase requested <> requested ->
   (forall m, In m modelList ->
      field m "name" = VStr requested \/ is_string (field m "name") = false) ->
   truthy (find_model (String_toLowerCase requested) modelList) = false).
Proof.
  split; [apply find_model_truthy|].
  intros Hcase Hall.
  destruct (truthy (find_model (String_toLowerCase requested) modelList))
    eqn:Hfound; [|reflexivity].
  apply find_model_truthy in Hfound as (m & Hin & Hm).
  destruct (Hall m Hin) as [H | H]; rewrite Hm in H.
  - injection H as H. contradiction.
  - discriminate.
Qed.

(** X5: on a run that ends in 200 with a string model, the names are
    assigned on the backend response object only when no entry matched
    and the model list is not empty; what is assigned then is the
    [name]s that are strings, in the order of the list, ten at most. *)
Theorem assigned_names w url body response data requested :
  outbound (snd (POST w)) = [(url, body)] ->
  fetch w url body = Settled (Normal response) ->
  ok response = true ->
  json response = Settled (Normal data) ->
  field body "model" = VStr requested ->
  completes (VStr requested) data = true ->
  let found :=
    truthy (find_model (String_toLowerCase requested) (model_list data)) in
  let names :=
    firstn 10 (filter is_string
                 (map (fun m => field m "name") (model_list data))) in
  (found = true -> response_props (snd (POST w)) = []) /\
  (model_list data = [] -> response_props (snd (POST w)) = []) /\
  (found = false -> model_list data <> [] ->
   response_props (snd (POST w)) = [("availableModels", VArr names)]) /\
  (length names <= 10)%nat /\
  Forall (fun name => exists text, name = VStr text) names.
Proof.
  intros Hcall Hfetch Hok Hjson Hmodel Hc found names.
  assert (Hprops : response_props (snd (POST w)) =
            if found || (length (model_list data) =? 0)%nat then []
            else [("availableModels", VArr names)]).
  { rewrite (POST_parsed _ _ _ _ _ Hcall Hfetch Hok Hjson), Hmodel.
    destruct (backend_success_completes _ response data (calling url body)
                Hjson Hc) as (requested' & result & [= <-] & _ & Hrun).
    rewrite Hrun. fold found. cbn [snd].
    destruct (found || (length (model_list data) =? 0)%nat);
      reflexivity. }
  rewrite Hprops.
  split; [intros ->; reflexivity|].
  split; [intros ->; rewrite orb_true_r; reflexivity|].
  split.
  { intros -> Hne. destruct (model_list data); [contradiction|].
    reflexivity. }
  split; [apply firstn_le_length|].
  apply Forall_forall. intros name Hin.
  apply In_firstn, filter_In in Hin as [_ Hstr].
  destruct name; try discriminate. eauto.
Qed.

(** X6: a 2xx answer whose body parses to [null] ends in 500, with the
    message of the [TypeError] raised by reading [data.message], and
    nothing is assigned on the backend response object. *)
Theorem null_body_is_500 w url body response data :
  outbound (snd (POST w)) = [(url, body)] ->
  fetch w url body = Settled (Normal response) ->
  ok response = true ->
  json response = Settled (Normal data) ->
  nullish data = true ->
  fst (POST w) = server_error (cannot_read data "message") /\
  response_props (snd (POST w)) = [].
Proof.
  intros Hcall Hfetch Hok Hjson Hdata.
  rewrite (POST_parsed _ _ _ _ _ Hcall Hfetch Hok Hjson).
  assert (Hc : completes (field body "model") data = false)
    by (unfold completes; rewrite Hdata; reflexivity).
  destruct (backend_success_fails _ response data (calling url body)
              Hjson Hc) as (message & Hne & Hrun & Hmessage & _).
  rewrite Hrun, <- (Hmessage Hdata). cbn [fst snd].
  split; [now apply catch_type_error | reflexivity].
Qed.

(** X7: on a 2xx body that is not [null], with a string model that no
    entry matches, a [null] entry in the model list ends the request in
    500, with the message of the [TypeError] raised by reading its
    [name]; the text already extracted is not returned. *)
Theorem null_descriptor_is_500 w url body response data requested :
  outbound (snd (POST w)) = [(url, body)] ->
  fetch w url body = Settled (Normal response) ->
  ok response = true ->
  json response = Settled (Normal data) ->
  nullish data = false ->
  field body "model" = VStr requested ->
  truthy (find_model (String_toLowerCase requested) (model_list data))
    = false ->
  forallb (fun m => negb (nullish m)) (model_list data) = false ->
  exists m,
    In m (model_list data) /\ nullish m = true /\
    fst (POST w) = server_error (cannot_read m "name") /\
    body_field (fst (POST w)) "text" = VUndefined.
Proof.
  intros Hcall Hfetch Hok Hjson Hdata Hmodel Hfound Hnull.
  rewrite (POST_parsed _ _ _ _ _ Hcall Hfetch Hok Hjson), Hmodel.
  assert (Hc : completes (VStr requested) data = false).
  { unfold completes. rewrite Hdata, Hfound, Hnull. cbn.
    destruct (model_list data); [discriminate | reflexivity]. }
  destruct (backend_success_fails _ response data (calling url body)
              Hjson Hc) as (message & Hne & Hrun & _ & Hmessage).
  destruct (Hmessage Hdata requested eq_refl) as (m & Hin & Hm & ->).
  exists m. rewrite Hrun. cbn [fst].
  rewrite (catch_type_error _ Hne).
  repeat split; assumption.
Qed.

(** X8: in every 200 answer the handler hands [text] and [raw] and
    nothing else to the serialiser, and the [text] it hands is truthy;
    so the [text] the caller receives is never missing and never the
    empty string, and it is [null] only when the selected value is a
    number that is not finite. *)
Theorem text_is_never_empty w :
  http_status (fst (POST w)) = 200%N ->
  exists result data,
    http_body (fst (POST w)) = VObj [("text", result); ("raw", data)] /\
    truthy result = true /\
    received (fst (POST w)) =
      VObj [("text", JSON_stringify result);
            ("raw", JSON_stringify data)] /\
    JSON_stringify result <> VStr EmptyString /\
    JSON_stringify result <> VUndefined /\
    (JSON_stringify result = VNull ->
     exists f, result = VNum f /\ PrimFloat.is_finite f = false).
Proof.
  intros H. apply POST_200_inv in H
    as (url & body & response & data & result & _ & _ & _ & _ & _
        & Htext & Hpost).
  pose proof (extract_text_truthy _ _ Htext) as Hresult.
  pose proof (extract_text_normal_inv _ _ Htext) as Hdata.
  exists result, data. unfold received. rewrite Hpost. cbn [http_body].
  split; [reflexivity|]. split; [exact Hresult|].
  split; [exact (stringify_success _ _ Hresult Hdata)|].
  exact (stringify_truthy _ Hresult).
Qed.

(** X9: the object handed to [JSON.stringify] for the outbound body
    holds [model], [messages] and [stream], in that order and nothing
    else, with the inbound model as it came.  In the body written, a
    string model is that string unchanged, not lowercased, [stream] is
    [false], and a request without a model gives a body without a
    [model] property. *)
Theorem outbound_model_is_verbatim w url body :
  In (url, body) (outbound (snd (POST w))) ->
  exists inbound out,
    req_json w = Normal inbound /\
    body = VObj [("model", field inbound "model");
                 ("messages", VArr out); ("stream", VBool false)] /\
    (forall name, field inbound "model" = VStr name ->
       field (JSON_stringify body) "model" = VStr name) /\
    field (JSON_stringify body) "stream" = VBool false /\
    (field inbound "model" = VUndefined ->
     JSON_stringify body =
       VObj [("messages", JSON_stringify (VArr out));
             ("stream", VBool false)]).
Proof.
  intros Hin. apply call_issued in Hin as [model Hreq].
  apply outbound_request_normal in Hreq
    as (inbound & items & out & Hjson & _ & _ & -> & _ & ->).
  exists inbound, out.
  split; [exact Hjson|]. split; [reflexivity|].
  split; [intros name ->; reflexivity|].
  split; [destruct (field inbound "model"); reflexivity|].
  intros ->. reflexivity.
Qed.

(** X10: a value named [AbortError] that is thrown while the inbound
    body is read gets the 504 answer of a timeout, although no call was
    issued, no timer armed and the controller never aborted. *)
Theorem abort_named_before_call w e :
  req_json w = Throw e ->
  is_abort e = true ->
  fst (POST w) =
    {| http_status := 504;
       http_body := VObj [("error", VStr "Ollama request timed out");
                          ("provider", VStr "ollama");
                          ("code", VNum 504%float)] |} /\
  snd (POST w) = entry_state.
Proof.
  intros Hjson Habort.
  rewrite (POST_inbound_early w e).
  - unfold catch_block. rewrite Habort. split; reflexivity.
  - now apply inbound_request_unread.
Qed.

End Handler.

(** ** Sample runs *)

(** The handler on the sample runtime. *)
Definition sample_POST : world -> http_response * state :=
  POST sample_Number_toString ascii_toLowerCase.

(** The outbound call of the sample requests for [llama3]. *)
Definition local_chat : string := "http://localhost:11434/api/chat".

Definition hi_body (model : value) : value :=
  VObj [("model", model); ("messages", VArr [chat "user" "hi"]);
        ("stream", VBool false)].

(** C1: the model [phi] is requested and the backend's 2xx body lists
    [llama3], [mistral] and an entry without a name.  The handler
    returns the text and the raw body only; the two names end up as a
    property of the backend response object, which is not returned. *)
Theorem available_models_left_on_backend_response :
  fst (sample_POST w_phi) =
    {| http_status := 200;
       http_body := VObj [("text", VStr "No response from Ollama");
                          ("raw", models_body)] |} /\
  body_field (fst (sample_POST w_phi)) "availableModels" = VUndefined /\
  response_props (snd (sample_POST w_phi)) =
    [("availableModels", VArr [VStr "llama3"; VStr "mistral"])].
Proof. repeat split. Qed.

Lemma text_by_priority_witness :
  http_status (fst (sample_POST w_hello)) = 200%N /\
  body_field (fst (sample_POST w_hello)) "text" = VStr "hello there".
Proof.
  destruct (text_by_priority sample_Number_toString ascii_toLowerCase
              w_hello local_chat (hi_body (VStr "llama3"))
              {| status := 200; statusText := "OK";
                 text := Settled (Normal EmptyString);
                 json := Settled (Normal (message_body "hello there")) |}
              (message_body "hello there") "llama3"
              eq_refl eq_refl eq_refl eq_refl eq_refl eq_refl eq_refl)
    as (Hstatus & Htext & _).
  split; [exact Hstatus | exact (Htext eq_refl)].
Defined.

(** The backend's message has an empty content: the content string is
    there, and [text] is the placeholder, not that string. *)
Lemma empty_content_gives_placeholder :
  field (field (message_body EmptyString) "message") "content"
    = VStr EmptyString /\
  fst (sample_POST w_empty_content) =
    {| http_status := 200;
       http_body := VObj [("text", VStr "No response from Ollama");
                          ("raw", message_body EmptyString)] |} /\
  body_field (fst (sample_POST w_empty_content)) "text" <> VStr EmptyString.
Proof. repeat split. discriminate. Qed.

Lemma backend_rejection_is_502_witness :
  http_status (fst (sample_POST w_not_found)) = 502%N /\
  body_field (fst (sample_POST w_not_found)) "details"
    = VStr "model not found" /\
  body_field (fst (sample_POST w_not_found)) "code" = VNum 404%float /\
  body_field (fst (sample_POST w_not_found)) "provider" = VStr "ollama".
Proof.
  apply (proj1 (backend_rejection_is_502
                  sample_Number_toString ascii_toLowerCase
                  w_not_found local_chat (hi_body (VStr "llama3"))
                  {| status := 404; statusText := "Not Found";
                     text := Settled (Normal "model not found");
                     json := Settled not_json |}
                  eq_refl eq_refl eq_refl) "model not found").
  reflexivity.
Defined.

(** The backend answers 503 and its body cannot be read: the handler
    returns 500, not 502. *)
Lemma unread_rejection_is_500 :
  outbound (snd (sample_POST w_unread)) =
    [(local_chat, hi_body (VStr "llama3"))] /\
  fetch w_unread local_chat (hi_body (VStr "llama3")) =
    Settled (Normal
       {| status := 503; statusText := "Service Unavailable";
          text := Settled (Throw (type_error "terminated"));
          json := Settled (Throw (type_error "terminated")) |}) /\
  fst (sample_POST w_unread) = server_error "terminated" /\
  http_status (fst (sample_POST w_unread)) <> 502%N.
Proof. repeat split. discriminate. Qed.

Lemma deadline_is_504_witness :
  fst (sample_POST w_slow) =
    {| http_status := 504;
       http_body := VObj [("error", VStr "Ollama request timed out");
                          ("provider", VStr "ollama");
                          ("code", VNum 504%float)] |} /\
  aborted (snd (sample_POST w_slow)) = true.
Proof.
  destruct (deadline_is_504 sample_Number_toString ascii_toLowerCase
              w_slow local_chat (hi_body (VStr "llama3"))
              eq_refl eq_refl) as (H & _ & _ & _ & Ha & _).
  exact (conj H Ha).
Defined.

Lemma raw_is_backend_body_witness :
  field (received (fst (sample_POST w_hello))) "raw"
    = message_body "hello there".
Proof.
  destruct (raw_is_backend_body sample_Number_toString ascii_toLowerCase
              w_hello eq_refl)
    as (url & body & response & data & _ & Hfetch & _ & Hjson & _ & _
        & Hraw).
  injection Hfetch as <-. injection Hjson as <-. exact (Hraw eq_refl).
Defined.

(** The backend's body holds a number that is not finite: the [raw]
    the caller receives holds [null] in its place. *)
Lemma overflow_is_not_returned :
  json_stable overflow_body = false /\
  http_status (fst (sample_POST w_overflow)) = 200%N /\
  body_field (fst (sample_POST w_overflow)) "raw" = overflow_body /\
  field (received (fst (sample_POST w_overflow))) "raw" =
    VObj [("response", VStr "r"); ("n", VNull)] /\
  field (received (fst (sample_POST w_overflow))) "raw" <> overflow_body.
Proof. repeat split. discriminate. Qed.

Lemma endpoint_resolution_witness :
  map fst (outbound (snd (sample_POST w_hello))) =
  ["http://localhost:11434/api/chat"].
Proof.
  destruct (endpoint_resolution sample_Number_toString ascii_toLowerCase
              w_hello (hi_request (VStr "llama3")) [chat "user" "hi"]
              eq_refl eq_refl
              (Forall_cons (chat "user" "hi")
                 (eq_refl : nullish (chat "user" "hi") = false)
                 (Forall_nil _))
              eq_refl)
    as (_ & _ & _ & _ & Hdefault).
  apply Hdefault; [reflexivity | left; reflexivity].
Defined.

(** The request has a [baseUrl], the empty string, and the call goes to
    the host of the environment, not to [/api/chat]. *)
Lemma empty_baseUrl_is_skipped :
  field empty_base_request "baseUrl" = VStr EmptyString /\
  map fst (outbound (snd (sample_POST w_empty_base))) =
    ["http://gpu-box:11434/api/chat"] /\
  map fst (outbound (snd (sample_POST w_empty_base))) <>
    [(EmptyString ++ "/api/chat")%string].
Proof. repeat split. discriminate. Qed.


Lemma other_failures_are_500_witness :
  fst (sample_POST (w_refused "fetch failed")) = server_error "fetch failed".
Proof.
  destruct (other_failures_are_500 sample_Number_toString ascii_toLowerCase
              (w_refused "fetch failed") (type_error "fetch failed")
              eq_refl eq_refl) as (_ & _ & _ & Hmessage & _).
  apply (Hmessage "TypeError" "fetch failed"); [reflexivity | discriminate].
Defined.

(** [fetch] rejects with an [Error] whose message is empty: [error] is
    [Unknown error], not that message. *)
Lemma empty_message_is_replaced :
  thrown sample_Number_toString ascii_toLowerCase w_silent
    (error_object "Error" EmptyString) /\
  field (error_object "Error" EmptyString) "message" = VStr EmptyString /\
  fst (sample_POST w_silent) = server_error "Unknown error" /\
  body_field (fst (sample_POST w_silent)) "error" <> VStr EmptyString.
Proof. repeat split. discriminate. Qed.

Lemma timer_always_cleared_witness :
  pending (snd (sample_POST w_slow)) = [] /\
  timeoutId (snd (sample_POST w_slow)) =
    Some {| timer_id := 0; delay := 45000 |}.
Proof.
  destruct (timer_always_cleared sample_Number_toString ascii_toLowerCase
              w_slow) as (Hpending & Htimer & _).
  split; [exact Hpending | apply Htimer; discriminate].
Defined.



(** The same request when the backend answers with a 2xx body: the
    lowercasing of the model fails after the call. *)
Example numeric_model_fails_after_2xx :
  fst (sample_POST w_numeric_model_2xx) =
    server_error "model.toLowerCase is not a function" /\
  map fst (outbound (snd (sample_POST w_numeric_model_2xx))) = [local_chat].
Proof. split; reflexivity. Qed.

(** A [null] in the model list is skipped by the search and read by the
    listing of names: the 2xx answer ends in 500. *)
Example null_descriptor_is_fatal :
  fst (sample_POST w_null_descriptor) =
    server_error "Cannot read properties of null (reading 'name')".
Proof. reflexivity. Qed.

(** The scenario of the specification: no [baseUrl], no [OLLAMA_URL],
    the backend answers [hello there]. *)
Example hello_there :
  sample_POST w_hello =
    ({| http_status := 200;
        http_body := VObj [("text", VStr "hello there");
                           ("raw", message_body "hello there")] |},
     {| timeoutId := Some {| timer_id := 0; delay := 45000 |};
        pending := []; timers_created := 1; aborted := false;
        outbound := [(local_chat, hi_body (VStr "llama3"))];
        response_props := [] |}).
Proof. reflexivity. Qed.

(** ** Sample runs of the further properties *)

Lemma success_iff_witness :
  exists url body response data,
    outbound (snd (sample_POST w_hello)) = [(url, body)] /\
    fetch w_hello url body = Settled (Normal response) /\
    ok response = true /\
    json response = Settled (Normal data) /\
    completes ascii_toLowerCase (field body "model") data = true.
Proof.
  exact (proj1 (success_iff sample_Number_toString ascii_toLowerCase
                  w_hello) eq_refl).
Defined.

Lemma model_found_iff_lowercased_name_witness :
  truthy (find_model (ascii_toLowerCase "Llama3")
            [VObj [("name", VStr "Llama3")]]) = false.
Proof.
  apply (proj2 (model_found_iff_lowercased_name ascii_toLowerCase
                  "Llama3" [VObj [("name", VStr "Llama3")]])).
  - discriminate.
  - intros m [<- | []]. left. reflexivity.
Defined.

Lemma assigned_names_witness :
  response_props (snd (sample_POST w_phi)) =
    [("availableModels", VArr [VStr "llama3"; VStr "mistral"])].
Proof.
  destruct (assigned_names sample_Number_toString ascii_toLowerCase
              w_phi local_chat (hi_body (VStr "phi"))
              {| status := 200; statusText := "OK";
                 text := Settled (Normal EmptyString);
                 json := Settled (Normal models_body) |}
              models_body "phi"
              eq_refl eq_refl eq_refl eq_refl eq_refl eq_refl)
    as (_ & _ & Hassigned & _).
  apply Hassigned; [reflexivity | discriminate].
Defined.

Lemma null_body_is_500_witness :
  fst (sample_POST w_null_body) =
    server_error "Cannot read properties of null (reading 'message')" /\
  response_props (snd (sample_POST w_null_body)) = [].
Proof.
  apply (null_body_is_500 sample_Number_toString ascii_toLowerCase
           w_null_body local_chat (hi_body (VStr "llama3"))
           {| status := 200; statusText := "OK";
              text := Settled (Normal "null");
              json := Settled (Normal VNull) |} VNull);
    reflexivity.
Defined.

Lemma null_descriptor_is_500_witness :
  fst (sample_POST w_null_descriptor) =
    server_error "Cannot read properties of null (reading 'name')".
Proof.
  destruct (null_descriptor_is_500 sample_Number_toString ascii_toLowerCase
              w_null_descriptor local_chat (hi_body (VStr "phi"))
              {| status := 200; statusText := "OK";
                 text := Settled (Normal EmptyString);
                 json := Settled (Normal (VObj [("models", VArr [VNull])])) |}
              (VObj [("models", VArr [VNull])]) "phi"
              eq_refl eq_refl eq_refl eq_refl eq_refl eq_refl eq_refl
              eq_refl)
    as (m & Hin & _ & Hpost & _).
  destruct Hin as [<- | []]. exact Hpost.
Defined.

Lemma text_is_never_empty_witness :
  received (fst (sample_POST w_empty_content)) =
    VObj [("text", VStr "No response from Ollama");
          ("raw", message_body EmptyString)].
Proof.
  destruct (text_is_never_empty sample_Number_toString ascii_toLowerCase
              w_empty_content eq_refl)
    as (result & data & Hbody & _ & Hreceived & _).
  injection Hbody as <- <-. exact Hreceived.
Defined.

Lemma outbound_model_is_verbatim_witness :
  field (JSON_stringify (hi_body (VNum 5%float))) "stream" = VBool false.
Proof.
  destruct (outbound_model_is_verbatim sample_Number_toString
              ascii_toLowerCase w_numeric_model local_chat
              (hi_body (VNum 5%float)) (or_introl eq_refl))
    as (inbound & out & _ & _ & _ & Hstream & _).
  exact Hstream.
Defined.

Lemma abort_named_before_call_witness :
  http_status (fst (sample_POST w_inbound_aborted)) = 504%N /\
  outbound (snd (sample_POST w_inbound_aborted)) = [].
Proof.
  destruct (abort_named_before_call sample_Number_toString
              ascii_toLowerCase w_inbound_aborted abort_error
              eq_refl eq_refl) as [Hpost Hstate].
  unfold sample_POST. rewrite Hpost, Hstate. split; reflexivity.
Defined.

(** A [baseUrl] that is an object with an own [toString]: line 35
    throws with the timer armed, no call is issued and the timer is
    cleared. *)
Example object_baseUrl_is_fatal :
  sample_POST w_object_base =
    (server_error "Cannot convert object to primitive value",
     {| timeoutId := Some {| timer_id := 0; delay := 45000 |};
        pending := []; timers_created := 1; aborted := false;
        outbound := []; response_props := [] |}).
Proof. reflexivity. Qed.

(** With the diagnostics on, line 13 converts the model to a string:
    an object model with an own [toString] ends the request there,
    before the timer is armed; with them off the same request is
    forwarded. *)
Example debug_log_can_throw :
  sample_POST w_debug_object_model =
    (server_error "Cannot convert object to primitive value", entry_state).
Proof. reflexivity. Qed.
